(** * R&D AI assistant: router, responders, graph run and HTTP endpoint

  A shallow embedding of [backend/rag_logic.py], [backend/main.py] and the
  functions and chat block of [frontend/app.py].

  Python strings are sequences of code points; here they are [string]s
  whose characters are the code points U+0000..U+00FF (the few characters
  above that, in texts the frontend shows, are carried as UTF-8 bytes).
  The external
  collaborators (language model, text splitter, vector store, web-search
  provider) are fields of an environment record; every call to one of
  them either returns or raises, and is recorded in a trace. *)

From Stdlib Require Import String Ascii NArith List Lia DecimalString.
From stdpp Require Import gmap strings list.

Local Open Scope string_scope.

(* ====================================================================== *)
(** ** Python string operations used by the backend *)
(* ====================================================================== *)

Module PyStr.

Definition chr (n : nat) : string := String (ascii_of_nat n) EmptyString.

(** The newline of the escape [\n]. *)
Definition nl : string := chr 10.

(** [str.isspace] on one code point below 256: TAB..CR, FS..US, SPACE,
    NEL and NBSP. *)
Definition isspace (c : ascii) : bool :=
  let n := N_of_ascii c in
  ((9 <=? n) && (n <=? 13) || (28 <=? n) && (n <=? 32)
   || (n =? 133) || (n =? 160))%N.

Fixpoint lstrip (s : string) : string :=
  match s with
  | EmptyString => EmptyString
  | String c s' => if isspace c then lstrip s' else s
  end.

Fixpoint rstrip (s : string) : string :=
  match s with
  | EmptyString => EmptyString
  | String c s' =>
      match rstrip s' with
      | EmptyString => if isspace c then EmptyString else String c EmptyString
      | r => String c r
      end
  end.

(** [s.strip()] with no argument. *)
Definition strip (s : string) : string := rstrip (lstrip s).

(** Lower-case mapping of one code point below 256: A..Z and the
    Latin-1 capitals U+00C0..U+00DE except the multiplication sign. *)
Definition lower_char (c : ascii) : ascii :=
  let n := N_of_ascii c in
  if ((65 <=? n) && (n <=? 90)
      || (192 <=? n) && (n <=? 222) && negb (n =? 215))%N
  then ascii_of_N (n + 32) else c.

(** [s.lower()]. *)
Fixpoint lower (s : string) : string :=
  match s with
  | EmptyString => EmptyString
  | String c s' => String (lower_char c) (lower s')
  end.

(** [sep.join(parts)]. *)
Fixpoint join (sep : string) (parts : list string) : string :=
  match parts with
  | [] => EmptyString
  | [p] => p
  | p :: rest => p +:+ sep +:+ join sep rest
  end.

End PyStr.

(* ====================================================================== *)
(** ** Exceptions, outcomes and the effect monad *)
(* ====================================================================== *)

(** A raised [Exception]; [msg] is what [str(e)] gives. *)
Inductive exn : Type := Exception (msg : string).

Definition str_exn (e : exn) : string := match e with Exception m => m end.

Inductive outcome (A : Type) : Type :=
| Returns (a : A)
| Raises (e : exn).
Arguments Returns {A} a.
Arguments Raises {A} e.

Inductive Message : Type :=
| SystemMessage (content : string)
| HumanMessage (content : string).

Record Document : Type := mkDocument {
  page_content : string;
  metadata : gmap string string
}.

(** [AgentState], the TypedDict shared by the graph nodes. *)
Record AgentState : Type := mkState {
  query : string;
  decision : string;
  result : string;
  documents : list string
}.

(** The [update=] dict of a [Command]: a partial dict over the keys of
    [AgentState] ([None]: the key is absent). *)
Record StateUpdate : Type := mkUpdate {
  upd_decision : option string;
  upd_result : option string;
  upd_documents : option (list string)
}.

(** What a run does, in order. *)
Inductive event : Type :=
| EvLlmInvoke (messages : list Message)
| EvRetrieverInvoke (k : nat) (q : string)
| EvTavilySearch (q search_depth : string) (max_results : nat)
| EvEnter (node : string) (state : AgentState)
| EvWrite (node : string) (update : StateUpdate) (state' : AgentState)
| EvLog (level msg : string).

Definition trace : Type := list event.

(** A computation: how it ends, and what it did on the way. *)
Definition M (A : Type) : Type := (outcome A * trace)%type.

Definition ret {A} (a : A) : M A := (Returns a, []).

Definition raise {A} (e : exn) : M A := (Raises e, []).

Definition bind {A B} (m : M A) (k : A -> M B) : M B :=
  match m with
  | (Returns a, t) => let (o, t') := k a in (o, (t ++ t')%list)
  | (Raises e, t) => (Raises e, t)
  end.

(** [try: body  except Exception as e: handler e]. *)
Definition try_except {A} (body : M A) (handler : exn -> M A) : M A :=
  match body with
  | (Returns a, t) => (Returns a, t)
  | (Raises e, t) => let (o, t') := handler e in (o, (t ++ t')%list)
  end.

Definition emit (e : event) : M unit := (Returns tt, [e]).

(** A call to an external collaborator: recorded, then its outcome. *)
Definition call {A} (e : event) (o : outcome A) : M A := (o, [e]).

Definition outcome_of {A} (m : M A) : outcome A := fst m.
Definition trace_of {A} (m : M A) : trace := snd m.

Declare Scope eff_scope.
Delimit Scope eff_scope with eff.
Notation "'let*' x ':=' c 'in' k" := (bind c (fun x => k))
  (at level 10, x name, c at level 200, k at level 200) : eff_scope.
Local Open Scope eff_scope.

(* ====================================================================== *)
(** ** External collaborators *)
(* ====================================================================== *)

(** The answer of the search provider: a dict whose ['results'] entry, when
    present, is a list of dicts with string values. *)
Abbreviation SearchResponse := (gmap string (list (gmap string string))).

Record Env : Type := mkEnv {
  (** [llm.invoke(messages).content] *)
  llm_invoke : list Message -> outcome string;
  (** [RecursiveCharacterTextSplitter(chunk_size, chunk_overlap)
    .split_documents(docs)] *)
  split_documents : nat -> nat -> list Document -> list Document;
  (** similarity search of the vector store built from [splits]:
    [store.as_retriever(search_kwargs={"k": k}).invoke(q)] *)
  chroma_search : list Document -> nat -> string -> outcome (list Document);
  (** [tavily_client.search(query, search_depth, max_results)] *)
  tavily_search : string -> string -> nat -> outcome SearchResponse
}.

(** [d.get(key, dflt)] on a dict. *)
Definition dict_get {V} (d : gmap string V) (key : string) (dflt : V) : V :=
  default dflt (d !! key).

(* ====================================================================== *)
(** ** The graph engine (langgraph): commands, builder, invoke *)
(* ====================================================================== *)

Module LangGraph.

Definition START : string := "__start__".
Definition END : string := "__end__".

(** [Command(goto=..., update=...)]. *)
Record Command : Type := mkCommand {
  goto : string;
  update : StateUpdate
}.

Definition node_fn : Type := AgentState -> M Command.

(** The graph under construction: registered nodes and plain edges, in
    the order they were added. *)
Record StateGraph : Type := mkGraph {
  nodes : list (string * node_fn);
  edges : list (string * string)
}.

Definition empty_graph : StateGraph := mkGraph [] [].

Definition add_node (name : string) (f : node_fn) (g : StateGraph) : StateGraph :=
  mkGraph (nodes g ++ [(name, f)])%list (edges g).

Definition add_edge (src dst : string) (g : StateGraph) : StateGraph :=
  mkGraph (nodes g) (edges g ++ [(src, dst)])%list.

Fixpoint assoc {V} (key : string) (l : list (string * V)) : option V :=
  match l with
  | [] => None
  | (k, v) :: rest => if String.eqb k key then Some v else assoc key rest
  end.

(** Keys present in the update overwrite the state; the others stay. *)
Definition apply_update (st : AgentState) (u : StateUpdate) : AgentState :=
  {| query := query st;
     decision := default (decision st) (upd_decision u);
     result := default (result st) (upd_result u);
     documents := default (documents st) (upd_documents u) |}.

(** The default [recursion_limit] of a compiled graph. *)
Definition recursion_limit : nat := 25.

(** One node per step: run it on the current state, write its update,
    follow its [goto]; [END] stops the run.  The step budget is the
    recursion limit. *)
Fixpoint steps (fuel : nat) (g : StateGraph) (cur : string) (st : AgentState)
  : M AgentState :=
  match fuel with
  | O => raise (Exception "Recursion limit reached without hitting a stop condition")
  | S fuel' =>
      match assoc cur (nodes g) with
      | None => raise (Exception ("Unknown node: " +:+ cur))
      | Some f =>
          let* _ := emit (EvEnter cur st) in
          let* cmd := f st in
          let st' := apply_update st (update cmd) in
          let* _ := emit (EvWrite cur (update cmd) st') in
          if String.eqb (goto cmd) END then ret st'
          else steps fuel' g (goto cmd) st'
      end
  end.

(** [graph.invoke(initial_state)]: start at the target of the edge out of
    [START]. *)
Definition invoke (g : StateGraph) (initial_state : AgentState) : M AgentState :=
  match assoc START (edges g) with
  | None => raise (Exception "Graph must have an entrypoint")
  | Some entry => steps recursion_limit g entry initial_state
  end.

End LangGraph.

(* ====================================================================== *)
(** ** backend/rag_logic.py *)
(* ====================================================================== *)

Module RagLogic.
Import PyStr LangGraph.

Definition e_grave : string := chr 232.
Definition E_grave : string := chr 200.
Definition a_grave : string := chr 224.

Definition sample_documents : list Document :=
  [ mkDocument
      ("Python " +:+ e_grave +:+ " un linguaggio di programmazione ad alto livello, interpretato e general-purpose. "
       +:+ E_grave +:+ " noto per la sua sintassi chiara e leggibile, che enfatizza la leggibilit" +:+ a_grave +:+ " del codice.")
      {[ "source" := "python_intro.txt" ]};
    mkDocument
      ("FastAPI " +:+ e_grave +:+ " un framework web moderno e veloce per la creazione di API con Python 3.7+. "
       +:+ E_grave +:+ " basato su standard come OpenAPI e JSON Schema, e offre validazione automatica dei dati.")
      {[ "source" := "fastapi_docs.txt" ]};
    mkDocument
      ("LangGraph " +:+ e_grave +:+ " un framework per costruire agenti e applicazioni multi-agente con LLM. "
       +:+ "Permette di creare grafi stateful con cicli, condizioni e persistenza dello stato.")
      {[ "source" := "langgraph_guide.txt" ]};
    mkDocument
      ("Il machine learning " +:+ e_grave +:+ " un campo dell'intelligenza artificiale che si concentra sulla "
       +:+ "costruzione di sistemi che apprendono dai dati e migliorano le loro prestazioni nel tempo.")
      {[ "source" := "ml_basics.txt" ]};
    mkDocument
      ("ChromaDB " +:+ e_grave +:+ " un database vettoriale open-source progettato per applicazioni AI. "
       +:+ "Supporta embeddings e ricerca per similarit" +:+ a_grave +:+ ", ideale per sistemi RAG.")
      {[ "source" := "chroma_overview.txt" ]} ].

(** The documents the vector store is built from: the splits of the
    sample documents. *)
Definition initialize_vector_store (env : Env) : list Document :=
  split_documents env 500 50 sample_documents.

Definition vectorstore (env : Env) : list Document := initialize_vector_store env.

Definition llm (env : Env) (messages : list Message) : M string :=
  call (EvLlmInvoke messages) (llm_invoke env messages).

Definition retriever (env : Env) (k : nat) (q : string) : M (list Document) :=
  call (EvRetrieverInvoke k q) (chroma_search env (vectorstore env) k q).

Definition tavily_client_search (env : Env) (q search_depth : string)
    (max_results : nat) : M SearchResponse :=
  call (EvTavilySearch q search_depth max_results)
       (tavily_search env q search_depth max_results).

(* -------------------------------------------------------------------- *)
(** *** router_node *)

Definition system_prompt : string :=
  "Sei un router intelligente. Analizza la domanda dell'utente e decidi quale strumento usare:" +:+ nl
  +:+ nl
  +:+ "- 'rag_search': se la domanda riguarda Python, FastAPI, LangGraph, ChromaDB, machine learning, o concetti di programmazione" +:+ nl
  +:+ "- 'web_search': se la domanda riguarda notizie attuali, eventi recenti, informazioni generali non tecniche" +:+ nl
  +:+ nl
  +:+ "Rispondi SOLO con 'rag_search' o 'web_search', senza altre parole.".

Definition router_messages (q : string) : list Message :=
  [ SystemMessage system_prompt; HumanMessage ("Domanda: " +:+ q) ].

(** The response normalised and validated against the two labels. *)
Definition validate (response : string) : string :=
  let decision := lower (strip response) in
  if decide (decision ∉ ["rag_search"; "web_search"]) then "rag_search"
  else decision.

Definition router_node (env : Env) (state : AgentState) : M Command :=
  let q := query state in
  let* response := llm env (router_messages q) in
  let decision := validate response in
  ret (mkCommand decision (mkUpdate (Some decision) None None)).

(* -------------------------------------------------------------------- *)
(** *** rag_search_node *)

Definition rag_prompt (documents_content q : string) : string :=
  "Usa i seguenti documenti per rispondere alla domanda. " +:+ nl
  +:+ "Se la risposta non " +:+ e_grave +:+ " nei documenti, dillo chiaramente." +:+ nl
  +:+ nl
  +:+ "DOCUMENTI:" +:+ nl
  +:+ documents_content +:+ nl
  +:+ nl
  +:+ "DOMANDA: " +:+ q +:+ nl
  +:+ nl
  +:+ "RISPOSTA:".

Definition rag_messages (relevant_docs : list Document) (q : string) : list Message :=
  let documents_content := join (nl +:+ nl) (map page_content relevant_docs) in
  [ SystemMessage "Sei un assistente AI che risponde basandosi solo sui documenti forniti.";
    HumanMessage (rag_prompt documents_content q) ].

Definition doc_sources (relevant_docs : list Document) : list string :=
  map (fun doc => dict_get (metadata doc) "source" "unknown") relevant_docs.

Definition rag_search_node (env : Env) (state : AgentState) : M Command :=
  let q := query state in
  let* relevant_docs := retriever env 3 q in
  let* response := llm env (rag_messages relevant_docs q) in
  ret (mkCommand END
         (mkUpdate None (Some response) (Some (doc_sources relevant_docs)))).

(* -------------------------------------------------------------------- *)
(** *** web_search_node *)

Definition search_hits (search_results : SearchResponse) : list (gmap string string) :=
  dict_get search_results "results" [].

Definition result_block (r : gmap string string) : string :=
  "Fonte: " +:+ dict_get r "url" "N/A" +:+ nl +:+ dict_get r "content" "".

Definition results_content (search_results : SearchResponse) : string :=
  join (nl +:+ nl) (map result_block (search_hits search_results)).

Definition web_prompt (results_content q : string) : string :=
  "Usa i seguenti risultati di ricerca web per rispondere alla domanda." +:+ nl
  +:+ nl
  +:+ "RISULTATI WEB:" +:+ nl
  +:+ results_content +:+ nl
  +:+ nl
  +:+ "DOMANDA: " +:+ q +:+ nl
  +:+ nl
  +:+ "RISPOSTA (sintetizza le informazioni in modo chiaro):".

Definition web_messages (search_results : SearchResponse) (q : string) : list Message :=
  [ SystemMessage "Sei un assistente AI che sintetizza informazioni da ricerche web.";
    HumanMessage (web_prompt (results_content search_results) q) ].

Definition web_sources (search_results : SearchResponse) : list string :=
  map (fun r => dict_get r "url" "N/A") (search_hits search_results).

Definition error_message (e : exn) : string :=
  "Errore durante la ricerca web: " +:+ str_exn e.

Definition web_search_node (env : Env) (state : AgentState) : M Command :=
  let q := query state in
  try_except
    (let* search_results := tavily_client_search env q "basic" 3 in
     let* response := llm env (web_messages search_results q) in
     ret (mkCommand END
            (mkUpdate None (Some response) (Some (web_sources search_results)))))
    (fun e =>
       ret (mkCommand END (mkUpdate None (Some (error_message e)) (Some [])))).

(* -------------------------------------------------------------------- *)
(** *** build_agent_graph and run_agent *)

Definition build_agent_graph (env : Env) : StateGraph :=
  let graph_builder := empty_graph in
  let graph_builder := add_node "router" (router_node env) graph_builder in
  let graph_builder := add_node "rag_search" (rag_search_node env) graph_builder in
  let graph_builder := add_node "web_search" (web_search_node env) graph_builder in
  let graph_builder := add_edge START "router" graph_builder in
  graph_builder.

(** The dict [run_agent] returns. *)
Record AgentResponse : Type := mkResponse {
  r_query : string;
  r_decision : string;
  r_result : string;
  r_sources : list string
}.

Definition initial_state (q : string) : AgentState :=
  {| query := q; decision := ""; result := ""; documents := [] |}.

Definition run_agent (env : Env) (q : string) : M AgentResponse :=
  let graph := build_agent_graph env in
  let* final_state := invoke graph (initial_state q) in
  ret {| r_query := query final_state;
         r_decision := decision final_state;
         r_result := result final_state;
         r_sources := documents final_state |}.

End RagLogic.

(* ====================================================================== *)
(** ** backend/main.py *)
(* ====================================================================== *)

Module Main.
Import PyStr RagLogic.

Record ChatRequest : Type := mkChatRequest { req_query : string }.

Record ChatResponse : Type := mkChatResponse {
  resp_query : string;
  resp_decision : string;
  resp_result : string;
  resp_sources : list string;
  resp_status : string
}.

(** How the handler ends: it returns a [ChatResponse] or raises
    [HTTPException(status_code, detail)]. *)
Inductive chat_outcome : Type :=
| ChatReturns (r : ChatResponse)
| ChatRaises (status_code : nat) (detail : string).

Definition logger_info (msg : string) : M unit := emit (EvLog "INFO" msg).

Definition chat (env : Env) (request : ChatRequest) : chat_outcome * trace :=
  match (let* _ := logger_info ("Ricevuta query: " +:+ req_query request) in
         let* agent_response := run_agent env (req_query request) in
         let* _ := logger_info ("Agente ha scelto: " +:+ r_decision agent_response) in
         ret {| resp_query := r_query agent_response;
                resp_decision := r_decision agent_response;
                resp_result := r_result agent_response;
                resp_sources := r_sources agent_response;
                resp_status := "success" |})
  with
  | (Returns response, t) => (ChatReturns response, t)
  | (Raises e, t) =>
      (ChatRaises 500 ("Errore interno del server: " +:+ str_exn e),
       (t ++ [EvLog "ERROR" ("Errore durante il processing: " +:+ str_exn e)])%list)
  end.

(** The field constraints of [ChatRequest]: [query] is required, with
    [min_length=1] and [max_length=1000]. *)
Definition parse_ChatRequest (body : gmap string string) : option ChatRequest :=
  match body !! "query" with
  | None => None
  | Some q =>
      if ((1 <=? String.length q) && (String.length q <=? 1000))%nat
      then Some (mkChatRequest q) else None
  end.

Inductive http_body : Type :=
| ChatBody (r : ChatResponse)
| ErrorBody (detail : string).

Record http_response : Type := mkHttp {
  status_code : nat;
  body : http_body
}.

(** [POST /chat]: the framework validates the body (422 when it does not
    fit [ChatRequest]), calls the handler, and turns a raised
    [HTTPException] into a response with its status code and detail. *)
Definition post_chat (env : Env) (json : gmap string string) : http_response * trace :=
  match parse_ChatRequest json with
  | None => (mkHttp 422 (ErrorBody "Unprocessable Entity"), [])
  | Some request =>
      match chat env request with
      | (ChatReturns r, t) => (mkHttp 200 (ChatBody r), t)
      | (ChatRaises code detail, t) => (mkHttp code (ErrorBody detail), t)
      end
  end.

Definition is_2xx (r : http_response) : bool :=
  ((200 <=? status_code r) && (status_code r <? 300))%nat.

End Main.

(* ====================================================================== *)
(** ** Observations on traces *)
(* ====================================================================== *)

(** The nodes the engine entered, in order. *)
Fixpoint visited (tr : trace) : list string :=
  match tr with
  | [] => []
  | EvEnter n _ :: t => n :: visited t
  | _ :: t => visited t
  end.

(** The states the engine held, in order: on entering a node and after
    writing its update. *)
Fixpoint snapshots (tr : trace) : list AgentState :=
  match tr with
  | [] => []
  | EvEnter _ s :: t => s :: snapshots t
  | EvWrite _ _ s :: t => s :: snapshots t
  | _ :: t => snapshots t
  end.

(** The updates written, with the node that wrote each. *)
Fixpoint writes (tr : trace) : list (string * StateUpdate) :=
  match tr with
  | [] => []
  | EvWrite n u _ :: t => (n, u) :: writes t
  | _ :: t => writes t
  end.

(** The state the router left and what happened after it, if the router
    wrote an update. *)
Fixpoint after_router (tr : trace) : option (AgentState * trace) :=
  match tr with
  | [] => None
  | EvWrite n u s :: t =>
      if String.eqb n "router" then Some (s, t) else after_router t
  | _ :: t => after_router t
  end.

(** The category the router chose in a run, if it chose one. *)
Definition chosen_category (tr : trace) : option string :=
  match after_router tr with
  | Some (s, _) => Some (decision s)
  | None => None
  end.

(** The states held before the first update that carries the
    ['documents'] key. *)
Fixpoint before_population (tr : trace) : list AgentState :=
  match tr with
  | [] => []
  | EvEnter _ s :: t => s :: before_population t
  | EvWrite _ u s :: t =>
      match upd_documents u with
      | Some _ => []
      | None => s :: before_population t
      end
  | _ :: t => before_population t
  end.

(** The nodes that wrote the ['documents'] key, with what they wrote. *)
Fixpoint populations (tr : trace) : list (string * list string) :=
  match tr with
  | [] => []
  | EvWrite n u _ :: t =>
      match upd_documents u with
      | Some docs => (n, docs) :: populations t
      | None => populations t
      end
  | _ :: t => populations t
  end.

(** The calls to the language model, in order. *)
Fixpoint llm_calls (tr : trace) : list (list Message) :=
  match tr with
  | [] => []
  | EvLlmInvoke msgs :: t => msgs :: llm_calls t
  | _ :: t => llm_calls t
  end.

(** How often the engine entered node [n]. *)
Definition times_visited (n : string) (tr : trace) : nat :=
  count_occ string_dec (visited tr) n.

(* ====================================================================== *)
(** ** The graph of the agent, node by node *)
(* ====================================================================== *)

Section Routing.
Import LangGraph RagLogic.

(** The responder registered under a label. *)
Definition responder (env : Env) (d : string) : node_fn :=
  if String.eqb d "web_search" then web_search_node env else rag_search_node env.

(** The state the router leaves when it chooses [d]. *)
Definition routed_state (q d : string) : AgentState :=
  {| query := q; decision := d; result := ""; documents := [] |}.

Definition router_update (d : string) : StateUpdate := mkUpdate (Some d) None None.

End Routing.

(* ====================================================================== *)
(** ** The contract of the document store *)
(* ====================================================================== *)

(** The contract of the store's search, for the code that calls it: a
    search for [k] passages returns at most [k] of them ... *)
Definition returns_at_most_k (env : Env) : Prop :=
  forall store k q docs,
    chroma_search env store k q = Returns docs -> length docs <= k.

(** ... and a search for at least one passage comes back empty only on an
    empty store. *)
Definition empty_only_on_empty_store (env : Env) : Prop :=
  forall store k q,
    0 < k -> chroma_search env store k q = Returns [] -> store = [].

(* ====================================================================== *)
(** ** Scenarios: concrete collaborators *)
(* ====================================================================== *)

Module Scenarios.
Import PyStr LangGraph RagLogic Main.

(** A language model that gives [router_reply] to the router's prompt and
    [answer] to every other prompt. *)
Definition scripted_llm (router_reply answer : outcome string)
  : list Message -> outcome string :=
  fun msgs =>
    match msgs with
    | SystemMessage s :: _ =>
        if String.eqb s system_prompt then router_reply else answer
    | _ => answer
    end.

(** A splitter that leaves documents shorter than the chunk size whole. *)
Definition whole_documents : nat -> nat -> list Document -> list Document :=
  fun _ _ docs => docs.

(** A store that answers with its first [k] documents. *)
Definition first_k : list Document -> nat -> string -> outcome (list Document) :=
  fun store k _ => Returns (take k store).

Definition two_hits : SearchResponse :=
  {[ "results" :=
       [ {[ "url" := "https://example.org/a"; "content" := "alpha" ]};
         {[ "content" := "beta" ]} ] ]}.

Definition offline : exn := Exception "connection refused".

Definition env_web : Env :=
  mkEnv (scripted_llm (Returns ("  Web_Search" +:+ nl)) (Returns "answer"))
        whole_documents first_k (fun _ _ _ => Returns two_hits).

Definition env_web_offline : Env :=
  mkEnv (scripted_llm (Returns "web_search") (Returns "answer"))
        whole_documents first_k (fun _ _ _ => Raises offline).

Definition env_web_llm_fails : Env :=
  mkEnv (scripted_llm (Returns "web_search") (Raises (Exception "rate limit")))
        whole_documents first_k (fun _ _ _ => Returns two_hits).

Definition env_web_no_hits : Env :=
  mkEnv (scripted_llm (Returns "web_search") (Returns "answer"))
        whole_documents first_k (fun _ _ _ => Returns ∅).

Definition env_rag : Env :=
  mkEnv (scripted_llm (Returns "maybe") (Returns "answer"))
        whole_documents first_k (fun _ _ _ => Raises offline).

Definition env_llm_down : Env :=
  mkEnv (fun _ => Raises (Exception "timeout"))
        whole_documents first_k (fun _ _ _ => Returns two_hits).

Definition ask (q : string) : AgentState := initial_state q.

Definition four_hits : list (gmap string string) :=
  [ {[ "url" := "https://example.org/1"; "content" := "one" ]};
    {[ "url" := "https://example.org/2"; "content" := "two" ]};
    {[ "url" := "https://example.org/3"; "content" := "three" ]};
    {[ "url" := "https://example.org/4"; "content" := "four" ]} ].

(** A provider that keeps to [max_results]. *)
Definition capped_provider (hits : list (gmap string string))
  : string -> string -> nat -> outcome SearchResponse :=
  fun _ _ max_results => Returns {[ "results" := take max_results hits ]}.

Definition env_web_capped : Env :=
  mkEnv (scripted_llm (Returns "web_search") (Returns "answer"))
        whole_documents first_k (capped_provider four_hits).

(** A provider that ignores [max_results]. *)
Definition env_web_uncapped : Env :=
  mkEnv (scripted_llm (Returns "web_search") (Returns "answer"))
        whole_documents first_k (fun _ _ _ => Returns {[ "results" := four_hits ]}).

Definition env_store_down : Env :=
  mkEnv (scripted_llm (Returns "rag_search") (Returns "answer"))
        whole_documents (fun _ _ _ => Raises offline) (fun _ _ _ => Returns two_hits).

(** [n] copies of [s], one after the other. *)
Fixpoint copies (n : nat) (s : string) : string :=
  match n with
  | O => EmptyString
  | S n' => s +:+ copies n' s
  end.

End Scenarios.

(* ====================================================================== *)
(** ** Calls to the store and the provider; their contracts *)
(* ====================================================================== *)

(** The calls to the retriever, in order: [(k, query)]. *)
Fixpoint retriever_calls (tr : trace) : list (nat * string) :=
  match tr with
  | [] => []
  | EvRetrieverInvoke k q :: t => (k, q) :: retriever_calls t
  | _ :: t => retriever_calls t
  end.

(** The calls to the search provider, in order:
    [(query, search_depth, max_results)]. *)
Fixpoint tavily_calls (tr : trace) : list (string * string * nat) :=
  match tr with
  | [] => []
  | EvTavilySearch q depth n :: t => (q, depth, n) :: tavily_calls t
  | _ :: t => tavily_calls t
  end.

(** Every character of [s] is white space for [str.strip]. *)
Fixpoint all_space (s : string) : bool :=
  match s with
  | EmptyString => true
  | String c s' => PyStr.isspace c && all_space s'
  end.

(** The provider returns no more results than it was asked for. *)
Definition provider_honours_max_results (env : Env) : Prop :=
  forall q depth n sr,
    tavily_search env q depth n = Returns sr ->
    length (default [] (sr !! "results")) <= n.

(** The splitter returns documents that fit in one chunk as they are. *)
Definition splitter_keeps_short_documents (env : Env) : Prop :=
  forall chunk_size chunk_overlap docs,
    Forall (fun d => String.length (page_content d) <= chunk_size) docs ->
    split_documents env chunk_size chunk_overlap docs = docs.

(** A search returns passages of the store it searches. *)
Definition search_returns_stored (env : Env) : Prop :=
  forall store k q docs,
    chroma_search env store k q = Returns docs ->
    forall d, In d docs -> In d store.

(* ====================================================================== *)
(** ** frontend/app.py *)
(* ====================================================================== *)

Module Frontend.
Import PyStr.

Definition chrN (n : N) : string := String (ascii_of_N n) EmptyString.

(** A character above U+00FF is carried as the bytes of its UTF-8
    encoding.  The frontend only puts such characters into the texts it
    shows; it never inspects them. *)
Definition utf8 (cp : N) : string :=
  (if cp <? 0x80 then chrN cp
   else if cp <? 0x800 then
     chrN (0xC0 + cp / 64) +:+ chrN (0x80 + cp mod 64)
   else if cp <? 0x10000 then
     chrN (0xE0 + cp / 4096) +:+ chrN (0x80 + (cp / 64) mod 64)
     +:+ chrN (0x80 + cp mod 64)
   else
     chrN (0xF0 + cp / 262144) +:+ chrN (0x80 + (cp / 4096) mod 64)
     +:+ chrN (0x80 + (cp / 64) mod 64) +:+ chrN (0x80 + cp mod 64))%N.

Definition books : string := utf8 0x1F4DA.
Definition globe : string := utf8 0x1F310.
Definition paperclip : string := utf8 0x1F4CE.
Definition stopwatch : string := utf8 0x23F1 +:+ utf8 0xFE0F.
Definition plug : string := utf8 0x1F50C.
Definition cross_mark : string := utf8 0x274C.

(** [str(n)] for a number that is not negative. *)
Definition str_of_nat (n : nat) : string :=
  NilZero.string_of_uint (Nat.to_uint n).

Definition BACKEND_URL : string := "http://localhost:8000".

(** The JSON object of a reply: a partial dict over the keys the backend
    sends, the five of [ChatResponse] and the ['detail'] of an error. *)
Record ResponseData : Type := mkData {
  rd_query : option string;
  rd_decision : option string;
  rd_result : option string;
  rd_sources : option (list string);
  rd_status : option string;
  rd_detail : option string
}.

(** A dict is true when it has at least one key. *)
Definition truthy (d : ResponseData) : bool :=
  match rd_query d, rd_decision d, rd_result d, rd_sources d, rd_status d, rd_detail d with
  | None, None, None, None, None, None => false
  | _, _, _, _, _, _ => true
  end.

(** A reply; [json] is what [response.json()] gives, which raises on a body
    that is not JSON. *)
Record Response : Type := mkReply {
  status_code : nat;
  json : outcome ResponseData
}.

(** What [requests.post] raises: a [Timeout], a [ConnectionError] that is
    not a [Timeout], or any other exception, with its text. *)
Inductive request_error : Type :=
| Timeout
| ConnectionError
| OtherException (msg : string).

Inductive sent : Type :=
| Replied (response : Response)
| Failed (e : request_error).

(** [requests.post(url, json=..., timeout=...)]. *)
Definition Net : Type := string -> gmap string string -> nat -> sent.

(** What the functions put on the page. *)
Inductive ui_event : Type :=
| StError (msg : string)
| StChatMarkdown (role text : string).

Definition send_query_to_backend (post : Net) (query : string)
  : option ResponseData * list ui_event :=
  match post (BACKEND_URL +:+ "/chat") {[ "query" := query ]} 30 with
  | Replied response =>
      if Nat.eqb (status_code response) 200 then
        match json response with
        | Returns data => (Some data, [])
        | Raises e =>
            (None, [StError (cross_mark +:+ " Errore imprevisto: " +:+ str_exn e)])
        end
      else
        (None, [StError ("Errore dal backend: " +:+ str_of_nat (status_code response))])
  | Failed Timeout =>
      (None, [StError (stopwatch
                       +:+ " Timeout: il backend sta impiegando troppo tempo a rispondere")])
  | Failed ConnectionError =>
      (None, [StError (plug
                       +:+ " Impossibile connettersi al backend. Assicurati che sia in esecuzione.")])
  | Failed (OtherException msg) =>
      (None, [StError (cross_mark +:+ " Errore imprevisto: " +:+ msg)])
  end.

(** The loop [for i, source in enumerate(sources, 1): formatted += ...],
    at the source numbered [i]. *)
Fixpoint add_sources (i : nat) (sources : list string) (formatted : string) : string :=
  match sources with
  | [] => formatted
  | source :: rest =>
      add_sources (S i) rest
        (formatted +:+ str_of_nat i +:+ ". `" +:+ source +:+ "`" +:+ nl)
  end.

Definition format_response (response_data : ResponseData) : string :=
  let result := default "Nessuna risposta disponibile" (rd_result response_data) in
  let decision := default "unknown" (rd_decision response_data) in
  let sources := default [] (rd_sources response_data) in
  let emoji := if String.eqb decision "rag_search" then books else globe in
  let tool_name :=
    if String.eqb decision "rag_search" then "RAG (Documenti Interni)" else "Web Search" in
  let formatted := result +:+ nl +:+ nl in
  let formatted := formatted +:+ "---" +:+ nl in
  let formatted := formatted +:+ emoji +:+ " **Metodo usato:** " +:+ tool_name +:+ nl in
  match sources with
  | [] => formatted
  | _ :: _ =>
      let formatted := formatted +:+ nl +:+ "**" +:+ paperclip +:+ " Fonti:**" +:+ nl in
      add_sources 1 sources formatted
  end.

(** An entry of [st.session_state.messages]. *)
Record ChatMessage : Type := mkMessage {
  role : string;
  content : string
}.



Definition error_msg : string :=
  cross_mark +:+ " Impossibile ottenere una risposta. Riprova.".

(** The block under [if query_to_send:]: it returns the new
    [st.session_state.messages]. *)
Definition process_query (post : Net) (messages : list ChatMessage)
    (query_to_send : option string) : list ChatMessage * list ui_event :=
  match query_to_send with
  | None => (messages, [])
  | Some q =>
      if String.eqb q "" then (messages, [])
      else
        let messages := (messages ++ [mkMessage "user" q])%list in
        let shown := [StChatMarkdown "user" q] in
        let (response_data, errors) := send_query_to_backend post q in
        match response_data with
        | Some data =>
            if truthy data then
              let formatted_response := format_response data in
              ((messages ++ [mkMessage "assistant" formatted_response])%list,
               (shown ++ errors ++ [StChatMarkdown "assistant" formatted_response])%list)
            else
              ((messages ++ [mkMessage "assistant" error_msg])%list,
               (shown ++ errors ++ [StError error_msg])%list)
        | None =>
            ((messages ++ [mkMessage "assistant" error_msg])%list,
             (shown ++ errors ++ [StError error_msg])%list)
        end
  end.

End Frontend.

(* ====================================================================== *)
(** ** The frontend in use *)
(* ====================================================================== *)




(** The lines of the sources section, numbered from [i]. *)
Fixpoint source_lines (i : nat) (sources : list string) : list string :=
  match sources with
  | [] => []
  | source :: rest =>
      (Frontend.str_of_nat i +:+ ". `" +:+ source +:+ "`" +:+ PyStr.nl)
      :: source_lines (S i) rest
  end.

(** The JSON object the backend sends for a response body. *)
Definition to_json (b : Main.http_body) : Frontend.ResponseData :=
  match b with
  | Main.ChatBody r =>
      Frontend.mkData (Some (Main.resp_query r)) (Some (Main.resp_decision r))
        (Some (Main.resp_result r)) (Some (Main.resp_sources r))
        (Some (Main.resp_status r)) None
  | Main.ErrorBody detail =>
      Frontend.mkData None None None None None (Some detail)
  end.

(** The network when the backend is up and answers in time: a POST to
    [/chat] gets what [post_chat] answers, any other path 404. *)
Definition served_by (env : Env) : Frontend.Net :=
  fun url body timeout =>
    if String.eqb url (Frontend.BACKEND_URL +:+ "/chat") then
      let response := fst (Main.post_chat env body) in
      Frontend.Replied
        (Frontend.mkReply (Main.status_code response)
           (Returns (to_json (Main.body response))))
    else
      Frontend.Replied
        (Frontend.mkReply 404
           (Returns (Frontend.mkData None None None None None (Some "Not Found")))).

(* ====================================================================== *)
(** ** Equations of the nodes and of the graph run *)
(* ====================================================================== *)

Section NodeEquations.
Import PyStr LangGraph RagLogic.
Variable env : Env.

Lemma validate_label (raw : string) :
  validate raw = "rag_search" \/ validate raw = "web_search".
Proof.
  unfold validate.
  destruct (decide (lower (strip raw) ∉ ["rag_search"; "web_search"])) as [Hn | Hin].
  - now left.
  - apply dec_stable in Hin.
    apply elem_of_cons in Hin as [-> | Hin]; [now left |].
    apply elem_of_cons in Hin as [-> | Hin]; [now right |].
    now apply elem_of_nil in Hin.
Qed.

Lemma validate_member (raw : string) :
  lower (strip raw) = "rag_search" \/ lower (strip raw) = "web_search" ->
  validate raw = lower (strip raw).
Proof.
  intros H. unfold validate.
  destruct (decide (lower (strip raw) ∉ ["rag_search"; "web_search"])) as [Hn | _];
    [| reflexivity].
  exfalso. apply Hn. destruct H as [-> | ->].
  - apply elem_of_cons. now left.
  - apply elem_of_cons. right. apply elem_of_cons. now left.
Qed.

Lemma validate_other (raw : string) :
  lower (strip raw) <> "rag_search" -> lower (strip raw) <> "web_search" ->
  validate raw = "rag_search".
Proof.
  intros H1 H2. unfold validate.
  destruct (decide (lower (strip raw) ∉ ["rag_search"; "web_search"])) as [_ | Hin];
    [reflexivity |].
  apply dec_stable in Hin.
  apply elem_of_cons in Hin as [Heq | Hin]; [contradiction |].
  apply elem_of_cons in Hin as [Heq | Hin]; [contradiction |].
  now apply elem_of_nil in Hin.
Qed.

Lemma router_node_eq (st : AgentState) :
  router_node env st =
  ( match llm_invoke env (router_messages (query st)) with
    | Returns raw =>
        Returns (mkCommand (validate raw) (mkUpdate (Some (validate raw)) None None))
    | Raises e => Raises e
    end,
    [EvLlmInvoke (router_messages (query st))] ).
Proof.
  unfold router_node, llm, call, bind, ret.
  destruct (llm_invoke env (router_messages (query st))); reflexivity.
Qed.

Lemma rag_search_node_eq (st : AgentState) :
  rag_search_node env st =
  match chroma_search env (vectorstore env) 3 (query st) with
  | Raises e => (Raises e, [EvRetrieverInvoke 3 (query st)])
  | Returns docs =>
      ( match llm_invoke env (rag_messages docs (query st)) with
        | Returns answer =>
            Returns (mkCommand END (mkUpdate None (Some answer) (Some (doc_sources docs))))
        | Raises e => Raises e
        end,
        [EvRetrieverInvoke 3 (query st); EvLlmInvoke (rag_messages docs (query st))] )
  end.
Proof.
  unfold rag_search_node, retriever, llm, call, bind, ret.
  destruct (chroma_search env (vectorstore env) 3 (query st)) as [docs | e];
    [| reflexivity].
  destruct (llm_invoke env (rag_messages docs (query st))); reflexivity.
Qed.

Lemma web_search_node_eq (st : AgentState) :
  web_search_node env st =
  match tavily_search env (query st) "basic" 3 with
  | Raises e =>
      ( Returns (mkCommand END (mkUpdate None (Some (error_message e)) (Some []))),
        [EvTavilySearch (query st) "basic" 3] )
  | Returns sr =>
      ( match llm_invoke env (web_messages sr (query st)) with
        | Returns answer =>
            Returns (mkCommand END (mkUpdate None (Some answer) (Some (web_sources sr))))
        | Raises e =>
            Returns (mkCommand END (mkUpdate None (Some (error_message e)) (Some [])))
        end,
        [EvTavilySearch (query st) "basic" 3; EvLlmInvoke (web_messages sr (query st))] )
  end.
Proof.
  unfold web_search_node, try_except, tavily_client_search, llm, call, bind, ret.
  destruct (tavily_search env (query st) "basic" 3) as [sr | e]; [| reflexivity].
  destruct (llm_invoke env (web_messages sr (query st))); reflexivity.
Qed.

End NodeEquations.

Section GraphRun.
Import PyStr LangGraph RagLogic.
Variable env : Env.

Lemma steps_S (fuel : nat) (g : StateGraph) (cur : string) (st : AgentState) :
  steps (S fuel) g cur st =
  match assoc cur (nodes g) with
  | None => raise (Exception ("Unknown node: " +:+ cur))
  | Some f =>
      let* _ := emit (EvEnter cur st) in
      let* cmd := f st in
      let st' := apply_update st (update cmd) in
      let* _ := emit (EvWrite cur (update cmd) st') in
      if String.eqb (goto cmd) END then ret st'
      else steps fuel g (goto cmd) st'
  end.
Proof. reflexivity. Qed.

Lemma invoke_entry (q : string) :
  invoke (build_agent_graph env) (initial_state q) =
  steps recursion_limit (build_agent_graph env) "router" (initial_state q).
Proof. reflexivity. Qed.

Lemma assoc_router :
  assoc "router" (nodes (build_agent_graph env)) = Some (router_node env).
Proof. reflexivity. Qed.

Lemma assoc_responder (d : string) :
  d = "rag_search" \/ d = "web_search" ->
  assoc d (nodes (build_agent_graph env)) = Some (responder env d).
Proof. intros [-> | ->]; reflexivity. Qed.

(** A responder that returns ends the run, leaves the category alone and
    writes the answer and the sources. *)
Lemma responder_returns (d : string) (st : AgentState) (c : Command) :
  outcome_of (responder env d st) = Returns c ->
  goto c = END /\ upd_decision (update c) = None /\
  (exists answer, upd_result (update c) = Some answer) /\
  (exists docs, upd_documents (update c) = Some docs).
Proof.
  unfold responder, outcome_of.
  destruct (String.eqb d "web_search").
  - rewrite web_search_node_eq.
    destruct (tavily_search env (query st) "basic" 3) as [sr | e]; cbn.
    + destruct (llm_invoke env (web_messages sr (query st)));
        intros [= <-]; cbn; eauto 6.
    + intros [= <-]; cbn; eauto 6.
  - rewrite rag_search_node_eq.
    destruct (chroma_search env (vectorstore env) 3 (query st)) as [docs | e]; cbn.
    + destruct (llm_invoke env (rag_messages docs (query st)));
        intros [= <-]; cbn; eauto 6.
    + intros [=].
Qed.

Lemma invoke_router_raises (q : string) (e : exn) :
  llm_invoke env (router_messages q) = Raises e ->
  invoke (build_agent_graph env) (initial_state q) =
  (Raises e, [EvEnter "router" (initial_state q); EvLlmInvoke (router_messages q)]).
Proof.
  intros Hllm. rewrite invoke_entry. unfold recursion_limit.
  rewrite steps_S, assoc_router, router_node_eq. cbn [query initial_state].
  rewrite Hllm. reflexivity.
Qed.

Lemma invoke_routed (q raw : string) :
  llm_invoke env (router_messages q) = Returns raw ->
  let d := validate raw in
  let s1 := routed_state q d in
  invoke (build_agent_graph env) (initial_state q) =
  ( match outcome_of (responder env d s1) with
    | Returns c2 => Returns (apply_update s1 (update c2))
    | Raises e => Raises e
    end,
    [ EvEnter "router" (initial_state q); EvLlmInvoke (router_messages q);
      EvWrite "router" (router_update d) s1; EvEnter d s1 ]
    ++ trace_of (responder env d s1)
    ++ match outcome_of (responder env d s1) with
       | Returns c2 => [EvWrite d (update c2) (apply_update s1 (update c2))]
       | Raises _ => []
       end )%list.
Proof.
  intros Hllm d s1. rewrite invoke_entry. unfold recursion_limit.
  rewrite steps_S, assoc_router, router_node_eq. cbn [query initial_state].
  rewrite Hllm. unfold bind at 1 2. cbn [emit].
  cbn [update goto]. fold d.
  change (apply_update (initial_state q) (mkUpdate (Some d) None None)) with s1.
  assert (Hd : String.eqb d END = false).
  { destruct (validate_label raw) as [Hv | Hv]; unfold d; rewrite Hv; reflexivity. }
  unfold bind at 1. cbn [emit]. rewrite Hd.
  rewrite steps_S, (assoc_responder d (validate_label raw)).
  pose proof (responder_returns d s1) as Hret.
  unfold outcome_of, trace_of in *.
  destruct (responder env d s1) as [[c2 | e] t2]; cbn [fst snd] in *.
  - destruct (Hret c2 eq_refl) as (Hgoto & _).
    unfold bind, emit, ret. rewrite Hgoto. cbn. reflexivity.
  - unfold bind, emit. cbn. now rewrite ?app_nil_r.
Qed.

Lemma run_agent_eq (q : string) :
  run_agent env q =
  ( match outcome_of (invoke (build_agent_graph env) (initial_state q)) with
    | Returns final_state =>
        Returns {| r_query := query final_state;
                   r_decision := decision final_state;
                   r_result := result final_state;
                   r_sources := documents final_state |}
    | Raises e => Raises e
    end,
    trace_of (invoke (build_agent_graph env) (initial_state q)) ).
Proof.
  unfold run_agent, bind, ret, outcome_of, trace_of.
  destruct (invoke (build_agent_graph env) (initial_state q)) as [[s | e] t]; cbn.
  - now rewrite app_nil_r.
  - reflexivity.
Qed.

End GraphRun.

(* ====================================================================== *)
(** ** Router *)
(* ====================================================================== *)

Section Router.
Import PyStr LangGraph RagLogic.

Example validate_maybe : validate "maybe" = "rag_search".
Proof. reflexivity. Qed.

Example validate_empty : validate "" = "rag_search".
Proof. reflexivity. Qed.

Example validate_upper_padded : validate "RAG_SEARCH " = "rag_search".
Proof. reflexivity. Qed.

Example validate_extra_words : validate "web_search please" = "rag_search".
Proof. reflexivity. Qed.

Example validate_partial : validate "web" = "rag_search".
Proof. reflexivity. Qed.

Example validate_web_padded : validate (" Web_Search" +:+ nl) = "web_search".
Proof. reflexivity. Qed.

(** C1. When the classifier answers [raw], the router returns; if [raw]
    trimmed and lower-cased is one of the two labels, the category it
    writes (and the node it goes to) is exactly that label; for every other
    normalised output the category is the default label ['rag_search']. *)
Theorem router_node_category (env : Env) (st : AgentState) (raw : string) :
  llm_invoke env (router_messages (query st)) = Returns raw ->
  exists cmd,
    outcome_of (router_node env st) = Returns cmd /\
    (forall label, label = "rag_search" \/ label = "web_search" ->
       lower (strip raw) = label ->
       goto cmd = label /\ upd_decision (update cmd) = Some label /\
       decision (apply_update st (update cmd)) = label) /\
    (lower (strip raw) <> "rag_search" -> lower (strip raw) <> "web_search" ->
       goto cmd = "rag_search" /\ upd_decision (update cmd) = Some "rag_search" /\
       decision (apply_update st (update cmd)) = "rag_search").
Proof.
  intros Hllm. rewrite router_node_eq, Hllm. unfold outcome_of. cbn [fst].
  eexists; split; [reflexivity |]. cbn [goto update upd_decision apply_update decision default].
  split.
  - intros label Hlabel Hnorm.
    rewrite validate_member by (rewrite Hnorm; exact Hlabel).
    rewrite Hnorm. cbn. auto.
  - intros H1 H2. rewrite (validate_other raw H1 H2). cbn. auto.
Qed.

Lemma router_node_category_witness :
  exists cmd,
    outcome_of (router_node Scenarios.env_web (Scenarios.ask "latest AI news")) = Returns cmd /\
    goto cmd = "web_search" /\ upd_decision (update cmd) = Some "web_search".
Proof.
  destruct (router_node_category Scenarios.env_web (Scenarios.ask "latest AI news")
              ("  Web_Search" +:+ nl) eq_refl) as (cmd & Hcmd & Hlabel & _).
  exists cmd. split; [exact Hcmd |].
  destruct (Hlabel "web_search" (or_intror eq_refl) eq_refl) as (Hg & Hu & _).
  split; assumption.
Defined.

End Router.

(* ====================================================================== *)
(** ** Web-search responder *)
(* ====================================================================== *)

Section WebSearch.
Import PyStr LangGraph RagLogic.

Lemma error_message_nonempty (e : exn) : error_message e <> "".
Proof. unfold error_message. discriminate. Qed.

(** C2. When the search-provider call raises [e], the web-search responder
    returns (it does not raise): the answer is the non-empty text
    ["Errore durante la ricerca web: " + str(e)], the sources are empty and
    the update has no category, so the category of the state stays what it
    was.  A run routed to web search then returns that record. *)
Theorem web_search_provider_raises (env : Env) (e : exn) :
  (forall st,
     tavily_search env (query st) "basic" 3 = Raises e ->
     exists cmd,
       outcome_of (web_search_node env st) = Returns cmd /\
       upd_result (update cmd) = Some ("Errore durante la ricerca web: " +:+ str_exn e) /\
       upd_documents (update cmd) = Some [] /\
       upd_decision (update cmd) = None /\
       result (apply_update st (update cmd)) <> "" /\
       documents (apply_update st (update cmd)) = [] /\
       decision (apply_update st (update cmd)) = decision st) /\
  (forall q raw,
     llm_invoke env (router_messages q) = Returns raw ->
     validate raw = "web_search" ->
     tavily_search env q "basic" 3 = Raises e ->
     outcome_of (run_agent env q) =
     Returns {| r_query := q; r_decision := "web_search";
                r_result := "Errore durante la ricerca web: " +:+ str_exn e;
                r_sources := [] |}).
Proof.
  split.
  - intros st Hsearch. rewrite web_search_node_eq, Hsearch.
    eexists; split; [reflexivity |]. cbn.
    repeat split; try reflexivity. discriminate.
  - intros q raw Hllm Hweb Hsearch.
    rewrite run_agent_eq, (invoke_routed env q raw Hllm), Hweb.
    unfold outcome_of. cbn [fst].
    change (responder env "web_search") with (web_search_node env).
    rewrite web_search_node_eq. cbn [query routed_state]. rewrite Hsearch.
    reflexivity.
Qed.

Lemma web_search_provider_raises_witness :
  (exists cmd,
     outcome_of (web_search_node Scenarios.env_web_offline (Scenarios.ask "latest AI news"))
       = Returns cmd /\
     upd_result (update cmd) = Some "Errore durante la ricerca web: connection refused" /\
     upd_documents (update cmd) = Some [] /\
     upd_decision (update cmd) = None) /\
  outcome_of (run_agent Scenarios.env_web_offline "latest AI news") =
  Returns {| r_query := "latest AI news"; r_decision := "web_search";
             r_result := "Errore durante la ricerca web: connection refused";
             r_sources := [] |}.
Proof.
  split.
  - destruct (proj1 (web_search_provider_raises Scenarios.env_web_offline Scenarios.offline)
                (Scenarios.ask "latest AI news") eq_refl)
      as (cmd & Hcmd & Hres & Hdocs & Hdec & _).
    exists cmd. repeat split; assumption.
  - exact (proj2 (web_search_provider_raises Scenarios.env_web_offline Scenarios.offline)
             "latest AI news" "web_search" eq_refl eq_refl eq_refl).
Defined.

End WebSearch.

(* ====================================================================== *)
(** ** The run of the graph *)
(* ====================================================================== *)

(** Every way a run can go: the router's call raises; or it returns and
    the chosen responder's calls return or raise. *)
Ltac run_cases env q :=
  rewrite ?run_agent_eq;
  let raw := fresh "raw" in
  let e := fresh "e" in
  let Hllm := fresh "Hllm" in
  let Hv := fresh "Hv" in
  destruct (llm_invoke env (RagLogic.router_messages q)) as [raw | e] eqn:Hllm;
  [ rewrite !(invoke_routed env q raw Hllm);
    destruct (validate_label raw) as [Hv | Hv]; rewrite !Hv;
    [ change (responder env "rag_search") with (RagLogic.rag_search_node env);
      rewrite !rag_search_node_eq; cbn [query routed_state];
      let docs := fresh "docs" in
      destruct (chroma_search env (RagLogic.vectorstore env) 3 q)
        as [docs | ?] eqn:?;
      [ destruct (llm_invoke env (RagLogic.rag_messages docs q)) as [? | ?] eqn:? | ]
    | change (responder env "web_search") with (RagLogic.web_search_node env);
      rewrite !web_search_node_eq; cbn [query routed_state];
      let sr := fresh "sr" in
      destruct (tavily_search env q "basic" 3) as [sr | ?] eqn:?;
      [ destruct (llm_invoke env (RagLogic.web_messages sr q)) as [? | ?] eqn:? | ] ]
  | rewrite !(invoke_router_raises env q e Hllm) ].

Section Run.
Import PyStr LangGraph RagLogic.

(** C3. In every run, whether it returns or raises: the run starts from
    the state with no sources; once the router has written the category, every
    later state carries that category and no later update has the
    ['decision'] key; every state held before the first update with the
    ['documents'] key has no sources; at most one update has that key, and
    it is written by the responder the router chose.  In a run that returns,
    exactly one update has it: the chosen responder's, with the sources
    returned. *)
Theorem category_frozen_sources_written_once (env : Env) (q : string) :
  let m := run_agent env q in
  head (snapshots (trace_of m)) = Some (initial_state q) /\
  documents (initial_state q) = [] /\
  (forall s post,
     after_router (trace_of m) = Some (s, post) ->
     Forall (fun s' => decision s' = decision s) (snapshots post) /\
     Forall (fun w => upd_decision (snd w) = None) (writes post)) /\
  Forall (fun s => documents s = []) (before_population (trace_of m)) /\
  length (populations (trace_of m)) <= 1 /\
  Forall (fun p => chosen_category (trace_of m) = Some (fst p))
         (populations (trace_of m)) /\
  (forall r,
     outcome_of m = Returns r ->
     populations (trace_of m) = [(r_decision r, r_sources r)]).
Proof.
  cbv zeta. unfold outcome_of, trace_of.
  run_cases env q; cbn;
    (split; [reflexivity |]); (split; [reflexivity |]);
    (split; [intros s post [= <- <-]; split; repeat constructor |]);
    (split; [repeat constructor |]);
    (split; [lia |]);
    (split; [repeat constructor |]);
    try (intros r [= <-]; reflexivity); try (intros r [=]).
Qed.

(** C4. A run starts the router on the record with the query, no category,
    no answer and no sources; it enters the router exactly once and no node
    twice; when the router's classifier call returns, the nodes entered are
    the router and then exactly the one responder named by the router's
    category; a run that returns gives a record with the input query and
    that category; and the run does return whenever the calls to the
    language model and to the store return. *)
Theorem run_agent_single_pass (env : Env) (q : string) :
  let m := run_agent env q in
  head (trace_of m) =
    Some (EvEnter "router" {| query := q; decision := ""; result := ""; documents := [] |}) /\
  times_visited "router" (trace_of m) = 1 /\
  NoDup (visited (trace_of m)) /\
  (forall raw,
     llm_invoke env (router_messages q) = Returns raw ->
     (validate raw = "rag_search" \/ validate raw = "web_search") /\
     visited (trace_of m) = ["router"; validate raw]) /\
  (forall r,
     outcome_of m = Returns r ->
     r_query r = q /\
     exists raw, llm_invoke env (router_messages q) = Returns raw /\
                 r_decision r = validate raw /\
                 populations (trace_of m) = [(validate raw, r_sources r)] /\
                 exists u, last (writes (trace_of m)) = Some (validate raw, u) /\
                           upd_result u = Some (r_result r)) /\
  ((forall msgs, exists text, llm_invoke env msgs = Returns text) ->
   (exists docs, chroma_search env (vectorstore env) 3 q = Returns docs) ->
   exists r, outcome_of m = Returns r).
Proof.
  cbv zeta. unfold outcome_of, trace_of, times_visited.
  split; [run_cases env q; reflexivity |].
  split; [run_cases env q; reflexivity |].
  split; [run_cases env q; cbn; compute_done |].
  split.
  { intros raw' Hraw. split; [apply validate_label |].
    run_cases env q; try discriminate;
      injection Hraw as <-; rewrite Hv; reflexivity. }
  split.
  { intros r. run_cases env q; cbn; intros [= <-]; cbn;
      (split; [reflexivity |]); eexists; (split; [reflexivity |]);
      rewrite Hv; (split; [reflexivity |]); (split; [reflexivity |]);
      eexists; split; reflexivity. }
  intros Hllm_total [docs Hdocs].
  destruct (Hllm_total (router_messages q)) as [raw Hraw].
  rewrite run_agent_eq, (invoke_routed env q raw Hraw). cbn [fst].
  destruct (validate_label raw) as [Hv | Hv]; rewrite Hv.
  - change (responder env "rag_search") with (rag_search_node env).
    rewrite rag_search_node_eq. cbn [query routed_state]. rewrite Hdocs.
    destruct (Hllm_total (rag_messages docs q)) as [answer ->].
    cbn. eauto.
  - change (responder env "web_search") with (web_search_node env).
    rewrite web_search_node_eq. cbn [query routed_state].
    destruct (tavily_search env q "basic" 3) as [sr | e]; cbn; [| eauto].
    destruct (llm_invoke env (web_messages sr q)); cbn; eauto.
Qed.

Lemma category_frozen_sources_written_once_witness :
  populations (trace_of (run_agent Scenarios.env_web "latest AI news"))
  = [("web_search", ["https://example.org/a"; "N/A"])].
Proof.
  exact (proj2 (proj2 (proj2 (proj2 (proj2 (proj2
           (category_frozen_sources_written_once Scenarios.env_web "latest AI news"))))))
           {| r_query := "latest AI news"; r_decision := "web_search";
              r_result := "answer"; r_sources := ["https://example.org/a"; "N/A"] |}
           eq_refl).
Defined.

Lemma scripted_llm_returns (reply answer : string) (msgs : list Message) :
  exists text, Scenarios.scripted_llm (Returns reply) (Returns answer) msgs = Returns text.
Proof.
  unfold Scenarios.scripted_llm.
  destruct msgs as [| [s | s] rest]; [eauto | | eauto].
  destruct (String.eqb s system_prompt); eauto.
Defined.

Lemma run_agent_single_pass_witness :
  visited (trace_of (run_agent Scenarios.env_rag "Cos'e FastAPI?"))
    = ["router"; "rag_search"] /\
  exists r, outcome_of (run_agent Scenarios.env_rag "Cos'e FastAPI?") = Returns r.
Proof.
  destruct (run_agent_single_pass Scenarios.env_rag "Cos'e FastAPI?")
    as (_ & _ & _ & Hvisit & _ & Hreturns).
  split.
  - exact (proj2 (Hvisit "maybe" eq_refl)).
  - apply Hreturns.
    + intros msgs. apply scripted_llm_returns.
    + eexists. reflexivity.
Defined.

End Run.

(* ====================================================================== *)
(** ** Retrieval responder *)
(* ====================================================================== *)

Section Retrieval.
Import PyStr LangGraph RagLogic.

Lemma length_doc_sources (docs : list Document) :
  length (doc_sources docs) = length docs.
Proof. unfold doc_sources. apply length_map. Qed.

(** Two passages split from one document give its label twice. *)
Example doc_sources_keeps_duplicates :
  let chunk := mkDocument "text" {[ "source" := "fastapi_docs.txt" ]} in
  doc_sources [chunk; mkDocument "other" {[ "source" := "ml_basics.txt" ]}; chunk]
  = ["fastapi_docs.txt"; "ml_basics.txt"; "fastapi_docs.txt"].
Proof. reflexivity. Qed.

(** C5. With a store whose search keeps its contract: whenever the
    retrieval responder returns, the store returned some passages [docs] for
    [k = 3] and the sources written are the ['source'] labels of [docs], one
    per passage in the order retrieved (nothing removed, so repeated labels
    stay); there are at most 3 of them, and none only if the store is
    empty.  The responder does return when the store and the language model
    return. *)
Theorem rag_search_sources (env : Env) (st : AgentState) :
  returns_at_most_k env ->
  empty_only_on_empty_store env ->
  (forall cmd,
     outcome_of (rag_search_node env st) = Returns cmd ->
     exists docs sources,
       chroma_search env (vectorstore env) 3 (query st) = Returns docs /\
       upd_documents (update cmd) = Some sources /\
       sources = map (fun doc => default "unknown" (metadata doc !! "source")) docs /\
       length sources = length docs /\
       length sources <= 3 /\
       (length sources = 0 -> vectorstore env = [])) /\
  (forall docs answer,
     chroma_search env (vectorstore env) 3 (query st) = Returns docs ->
     llm_invoke env (rag_messages docs (query st)) = Returns answer ->
     outcome_of (rag_search_node env st) =
     Returns (mkCommand END (mkUpdate None (Some answer) (Some (doc_sources docs))))).
Proof.
  intros Hk Hempty. split.
  - intros cmd. rewrite rag_search_node_eq. unfold outcome_of.
    destruct (chroma_search env (vectorstore env) 3 (query st)) as [docs | e] eqn:Hdocs;
      cbn [fst]; [| discriminate].
    destruct (llm_invoke env (rag_messages docs (query st))) as [answer | e];
      [| discriminate].
    intros [= <-]. exists docs, (doc_sources docs). cbn [update upd_documents].
    rewrite length_doc_sources.
    repeat split.
    + exact (Hk _ _ _ _ Hdocs).
    + intros Hlen. apply length_zero_iff_nil in Hlen. subst docs.
      apply (Hempty _ 3 (query st)); [lia | exact Hdocs].
  - intros docs answer Hdocs Hanswer.
    rewrite rag_search_node_eq, Hdocs. unfold outcome_of. cbn [fst].
    now rewrite Hanswer.
Qed.

Lemma first_k_at_most_k : returns_at_most_k Scenarios.env_rag.
Proof.
  intros store k q docs [= <-]. rewrite length_take. lia.
Defined.

Lemma first_k_empty_only_on_empty_store : empty_only_on_empty_store Scenarios.env_rag.
Proof.
  intros store k q Hk. destruct k as [| k]; [lia |].
  destruct store; [reflexivity | discriminate].
Defined.

Lemma rag_search_sources_witness :
  (exists docs sources,
     chroma_search Scenarios.env_rag (vectorstore Scenarios.env_rag) 3 "Cos'e FastAPI?"
       = Returns docs /\
     sources = ["python_intro.txt"; "fastapi_docs.txt"; "langgraph_guide.txt"] /\
     length sources <= 3) /\
  outcome_of (rag_search_node Scenarios.env_rag (Scenarios.ask "Cos'e FastAPI?")) =
  Returns (mkCommand END
             (mkUpdate None (Some "answer")
                (Some ["python_intro.txt"; "fastapi_docs.txt"; "langgraph_guide.txt"]))).
Proof.
  pose proof (rag_search_sources Scenarios.env_rag (Scenarios.ask "Cos'e FastAPI?")
                first_k_at_most_k first_k_empty_only_on_empty_store) as [Hret Hlive].
  split.
  - destruct (Hret _ (Hlive (take 3 sample_documents) "answer" eq_refl eq_refl))
      as (docs & sources & Hdocs & [= <-] & _ & _ & Hlen & _).
    exists docs, (doc_sources (take 3 sample_documents)).
    split; [exact Hdocs |]. split; [reflexivity | exact Hlen].
  - exact (Hlive (take 3 sample_documents) "answer" eq_refl eq_refl).
Defined.

End Retrieval.

(* ====================================================================== *)
(** ** Web-search responder: the provider returns *)
(* ====================================================================== *)

Section WebSearchReturns.
Import PyStr LangGraph RagLogic.

(** C6 as first stated fails here: the provider returns two results and
    the language model then raises; the responder returns the error text
    with no sources, not the URLs of the results. *)
Lemma web_sources_dropped_when_llm_raises :
  tavily_search Scenarios.env_web_llm_fails "latest AI news" "basic" 3
    = Returns Scenarios.two_hits /\
  web_sources Scenarios.two_hits = ["https://example.org/a"; "N/A"] /\
  outcome_of (web_search_node Scenarios.env_web_llm_fails (Scenarios.ask "latest AI news"))
    = Returns (mkCommand END
                 (mkUpdate None (Some "Errore durante la ricerca web: rate limit")
                    (Some []))) /\
  ~ (exists cmd,
       outcome_of (web_search_node Scenarios.env_web_llm_fails
                     (Scenarios.ask "latest AI news")) = Returns cmd /\
       upd_documents (update cmd) = Some (web_sources Scenarios.two_hits)).
Proof.
  split; [reflexivity |]. split; [reflexivity |]. split; [reflexivity |].
  intros (cmd & Hcmd & Hdocs).
  change (Returns (mkCommand END
            (mkUpdate None (Some "Errore durante la ricerca web: rate limit") (Some [])))
          = Returns cmd) in Hcmd.
  injection Hcmd as <-. discriminate Hdocs.
Qed.

(** C6, amended. When the provider call returns [sr]: the responder asked
    the provider once, at depth ['basic'] for at most 3 results, and called
    the language model exactly once, with a prompt whose context block joins
    one ["Fonte: <url>\n<content>"] block per result; and when that
    language-model call returns, the responder returns its text with
    sources exactly the results' URLs in the provider's order (when it
    raises, the same handler answers with the error text and no sources). *)
Theorem web_search_provider_returns (env : Env) (st : AgentState) (sr : SearchResponse) :
  tavily_search env (query st) "basic" 3 = Returns sr ->
  trace_of (web_search_node env st) =
    [ EvTavilySearch (query st) "basic" 3;
      EvLlmInvoke
        [ SystemMessage "Sei un assistente AI che sintetizza informazioni da ricerche web.";
          HumanMessage
            (web_prompt
               (join (nl +:+ nl)
                  (map (fun r => "Fonte: " +:+ default "N/A" (r !! "url") +:+ nl
                                 +:+ default "" (r !! "content"))
                       (default [] (sr !! "results"))))
               (query st)) ] ] /\
  length (llm_calls (trace_of (web_search_node env st))) = 1 /\
  (forall answer,
     llm_invoke env (web_messages sr (query st)) = Returns answer ->
     outcome_of (web_search_node env st) =
     Returns (mkCommand END
                (mkUpdate None (Some answer)
                   (Some (map (fun r => default "N/A" (r !! "url"))
                              (default [] (sr !! "results"))))))) /\
  (forall e,
     llm_invoke env (web_messages sr (query st)) = Raises e ->
     outcome_of (web_search_node env st) =
     Returns (mkCommand END
                (mkUpdate None (Some ("Errore durante la ricerca web: " +:+ str_exn e))
                   (Some [])))).
Proof.
  intros Hsearch. rewrite web_search_node_eq, Hsearch.
  unfold trace_of, outcome_of. cbn [fst snd].
  split; [reflexivity |]. split; [reflexivity |].
  split; [intros answer -> | intros e ->]; reflexivity.
Qed.

Lemma web_search_provider_returns_witness :
  outcome_of (web_search_node Scenarios.env_web (Scenarios.ask "latest AI news")) =
  Returns (mkCommand END
             (mkUpdate None (Some "answer") (Some ["https://example.org/a"; "N/A"]))).
Proof.
  exact (proj1 (proj2 (proj2 (web_search_provider_returns Scenarios.env_web
                                (Scenarios.ask "latest AI news") Scenarios.two_hits eq_refl)))
           "answer" eq_refl).
Defined.

End WebSearchReturns.

(* ====================================================================== *)
(** ** POST /chat *)
(* ====================================================================== *)

Section Chat.
Import PyStr LangGraph RagLogic Main.

Lemma chat_eq (env : Env) (request : ChatRequest) :
  fst (chat env request) =
  match outcome_of (run_agent env (req_query request)) with
  | Returns r =>
      ChatReturns {| resp_query := r_query r; resp_decision := r_decision r;
                     resp_result := r_result r; resp_sources := r_sources r;
                     resp_status := "success" |}
  | Raises e => ChatRaises 500 ("Errore interno del server: " +:+ str_exn e)
  end.
Proof.
  unfold chat, logger_info, bind, emit, ret, outcome_of.
  destruct (run_agent env (req_query request)) as [[r | e] t]; reflexivity.
Qed.

Lemma parse_valid (json : gmap string string) (q : string) :
  json !! "query" = Some q ->
  1 <= String.length q <= 1000 ->
  parse_ChatRequest json = Some (mkChatRequest q).
Proof.
  intros Hq [Hmin Hmax]. unfold parse_ChatRequest. rewrite Hq.
  destruct (Nat.leb_spec 1 (String.length q)); [| lia].
  destruct (Nat.leb_spec (String.length q) 1000); [| lia].
  reflexivity.
Qed.

Lemma post_chat_eq (env : Env) (json : gmap string string) (q : string) :
  json !! "query" = Some q ->
  1 <= String.length q <= 1000 ->
  fst (post_chat env json) =
  match outcome_of (run_agent env q) with
  | Returns r =>
      mkHttp 200 (ChatBody {| resp_query := r_query r; resp_decision := r_decision r;
                              resp_result := r_result r; resp_sources := r_sources r;
                              resp_status := "success" |})
  | Raises e => mkHttp 500 (ErrorBody ("Errore interno del server: " +:+ str_exn e))
  end.
Proof.
  intros Hq Hlen. unfold post_chat. rewrite (parse_valid json q Hq Hlen).
  pose proof (chat_eq env (mkChatRequest q)) as Hchat. cbn [req_query] in Hchat.
  destruct (chat env (mkChatRequest q)) as [[r | code detail] t];
    cbn [fst] in *;
    destruct (outcome_of (run_agent env q)); try discriminate;
    injection Hchat as <-; try subst; reflexivity.
Qed.

(** A body whose query is empty is refused before the handler runs. *)
Example post_chat_empty_query :
  fst (post_chat Scenarios.env_web {[ "query" := "" ]})
  = mkHttp 422 (ErrorBody "Unprocessable Entity").
Proof. reflexivity. Qed.

(** C7. For a body whose ['query'] is a string of 1 to 1000 characters:
    when the agent returns a record, the endpoint answers 200 with
    [{query, decision, result, sources, status}] taken from that record and
    status ['success']; and it answers outside 2xx with an error detail
    exactly when the agent raises, the answer then being 500 with the text
    of the exception in the detail. *)
Theorem post_chat_valid_query (env : Env) (json : gmap string string) (q : string) :
  json !! "query" = Some q ->
  1 <= String.length q <= 1000 ->
  let response := fst (post_chat env json) in
  (forall r,
     outcome_of (run_agent env q) = Returns r ->
     response =
     mkHttp 200 (ChatBody {| resp_query := r_query r; resp_decision := r_decision r;
                             resp_result := r_result r; resp_sources := r_sources r;
                             resp_status := "success" |})) /\
  ((is_2xx response = false /\ exists detail, body response = ErrorBody detail)
   <-> exists e, outcome_of (run_agent env q) = Raises e) /\
  (forall e,
     outcome_of (run_agent env q) = Raises e ->
     response = mkHttp 500 (ErrorBody ("Errore interno del server: " +:+ str_exn e))).
Proof.
  intros Hq Hlen. cbv zeta. rewrite (post_chat_eq env json q Hq Hlen).
  destruct (outcome_of (run_agent env q)) as [r | e].
  - split; [intros r' [= <-]; reflexivity |].
    split; [| intros e [=]].
    split; [intros [H2xx _]; discriminate H2xx | intros [e [=]]].
  - split; [intros r [=] |].
    split; [| intros e' [= <-]; reflexivity].
    split; [intros _; eauto | intros _; split; [reflexivity | eauto]].
Qed.

Lemma post_chat_valid_query_witness :
  fst (post_chat Scenarios.env_llm_down {[ "query" := "latest AI news" ]})
  = mkHttp 500 (ErrorBody "Errore interno del server: timeout") /\
  fst (post_chat Scenarios.env_web {[ "query" := "latest AI news" ]})
  = mkHttp 200 (ChatBody {| resp_query := "latest AI news"; resp_decision := "web_search";
                            resp_result := "answer";
                            resp_sources := ["https://example.org/a"; "N/A"];
                            resp_status := "success" |}).
Proof.
  split.
  - refine (proj2 (proj2 (post_chat_valid_query Scenarios.env_llm_down
                            {[ "query" := "latest AI news" ]} "latest AI news"
                            eq_refl _)) (Exception "timeout") eq_refl).
    cbn; lia.
  - refine (proj1 (post_chat_valid_query Scenarios.env_web
                     {[ "query" := "latest AI news" ]} "latest AI news"
                     eq_refl _) _ eq_refl).
    cbn; lia.
Defined.

End Chat.

(* ====================================================================== *)
(** ** Repeated runs *)
(* ====================================================================== *)

Section Repeat.
Import PyStr LangGraph RagLogic.

(** The category of a run is decided by the classifier's answer alone. *)
Lemma chosen_category_eq (env : Env) (q : string) :
  chosen_category (trace_of (run_agent env q)) =
  match llm_invoke env (router_messages q) with
  | Returns raw => Some (validate raw)
  | Raises _ => None
  end.
Proof.
  unfold trace_of. run_cases env q; cbn; rewrite ?Hv; reflexivity.
Qed.

Lemma returned_decision (env : Env) (q : string) (r : AgentResponse) :
  outcome_of (run_agent env q) = Returns r ->
  Some (r_decision r) = chosen_category (trace_of (run_agent env q)).
Proof.
  unfold outcome_of, trace_of.
  run_cases env q; cbn; intros [= <-]; reflexivity.
Qed.

(** C8. Two runs on the same query, each with its own collaborators: if
    the classifier gives both the same outcome on the router's prompt for
    that query, the router chooses the same category in both, the router
    node ends the same way in both, and when both runs return their records
    carry the same category. *)
Theorem same_classifier_same_category (env1 env2 : Env) (q : string) :
  llm_invoke env1 (router_messages q) = llm_invoke env2 (router_messages q) ->
  chosen_category (trace_of (run_agent env1 q))
    = chosen_category (trace_of (run_agent env2 q)) /\
  (forall st, query st = q -> router_node env1 st = router_node env2 st) /\
  (forall r1 r2,
     outcome_of (run_agent env1 q) = Returns r1 ->
     outcome_of (run_agent env2 q) = Returns r2 ->
     r_decision r1 = r_decision r2).
Proof.
  intros Hsame.
  assert (Hcat : chosen_category (trace_of (run_agent env1 q))
                 = chosen_category (trace_of (run_agent env2 q))).
  { rewrite !chosen_category_eq, Hsame. reflexivity. }
  split; [exact Hcat |]. split.
  - intros st <-. rewrite !router_node_eq, Hsame. reflexivity.
  - intros r1 r2 H1 H2.
    apply returned_decision in H1, H2. congruence.
Qed.

Lemma same_classifier_same_category_witness :
  chosen_category (trace_of (run_agent Scenarios.env_web_offline "latest AI news"))
  = chosen_category (trace_of (run_agent Scenarios.env_web_llm_fails "latest AI news")).
Proof.
  exact (proj1 (same_classifier_same_category Scenarios.env_web_offline
                  Scenarios.env_web_llm_fails "latest AI news" eq_refl)).
Defined.

End Repeat.

(* ====================================================================== *)
(** ** Missing provenance and empty result lists *)
(* ====================================================================== *)

Section Provenance.
Import PyStr LangGraph RagLogic.

Lemma lookup_map {A B} (f : A -> B) (l : list A) (i : nat) (x : A) :
  l !! i = Some x -> map f l !! i = Some (f x).
Proof.
  revert i. induction l as [| a l IH]; intros [| i] H; try discriminate.
  - now injection H as ->.
  - cbn in *. now apply IH.
Qed.

(** C9 as first stated fails here: the second result has no ['url'] and
    the language model raises; the responder returns an empty sources list,
    with no ['N/A'] in it. *)
Lemma missing_url_not_reported_when_llm_raises :
  tavily_search Scenarios.env_web_llm_fails "latest AI news" "basic" 3
    = Returns Scenarios.two_hits /\
  (exists r : gmap string string,
     search_hits Scenarios.two_hits !! 1 = Some r /\ r !! "url" = None) /\
  exists cmd,
    outcome_of (web_search_node Scenarios.env_web_llm_fails
                  (Scenarios.ask "latest AI news")) = Returns cmd /\
    upd_documents (update cmd) = Some [] /\
    ~ (exists sources : list string,
         upd_documents (update cmd) = Some sources /\ sources !! 1 = Some "N/A").
Proof.
  split; [reflexivity |]. split.
  - exists {[ "content" := "beta" ]}. split; reflexivity.
  - eexists. split; [reflexivity |]. split; [reflexivity |].
    intros (sources & [= <-] & Hnth). discriminate Hnth.
Qed.

(** C9, amended. A retrieved passage whose metadata has no ['source'] gives
    ['unknown'] at its place in the sources of the retrieval responder.  A
    web result with no ['url'] gives ['N/A'] in its block of the context sent
    to the language model, the responder returns whatever the result lacks,
    and when the language-model call returns, ['N/A'] is at the result's
    place in the sources. *)
Theorem missing_provenance_defaults (env : Env) (st : AgentState) :
  (forall docs answer i doc,
     chroma_search env (vectorstore env) 3 (query st) = Returns docs ->
     llm_invoke env (rag_messages docs (query st)) = Returns answer ->
     docs !! i = Some doc ->
     metadata doc !! "source" = None ->
     exists cmd sources,
       outcome_of (rag_search_node env st) = Returns cmd /\
       upd_documents (update cmd) = Some sources /\
       sources !! i = Some "unknown") /\
  (forall sr i (r : gmap string string),
     tavily_search env (query st) "basic" 3 = Returns sr ->
     default [] (sr !! "results") !! i = Some r ->
     r !! "url" = None ->
     (exists cmd, outcome_of (web_search_node env st) = Returns cmd) /\
     (exists blocks,
        llm_calls (trace_of (web_search_node env st)) =
          [ [ SystemMessage "Sei un assistente AI che sintetizza informazioni da ricerche web.";
              HumanMessage (web_prompt (join (nl +:+ nl) blocks) (query st)) ] ] /\
        blocks !! i = Some ("Fonte: N/A" +:+ nl +:+ default "" (r !! "content"))) /\
     (forall answer,
        llm_invoke env (web_messages sr (query st)) = Returns answer ->
        exists cmd sources,
          outcome_of (web_search_node env st) = Returns cmd /\
          upd_documents (update cmd) = Some sources /\
          sources !! i = Some "N/A")).
Proof.
  split.
  - intros docs answer i doc Hdocs Hanswer Hi Hsource.
    rewrite rag_search_node_eq, Hdocs. unfold outcome_of. cbn [fst].
    rewrite Hanswer. do 2 eexists. split; [reflexivity |]. split; [reflexivity |].
    unfold doc_sources.
    rewrite (lookup_map _ docs i doc Hi). unfold dict_get. now rewrite Hsource.
  - intros sr i r Hsearch Hi Hurl.
    rewrite web_search_node_eq, Hsearch. unfold outcome_of, trace_of. cbn [fst snd].
    split; [| split].
    + destruct (llm_invoke env (web_messages sr (query st))); eauto.
    + exists (map result_block (search_hits sr)). split; [reflexivity |].
      unfold search_hits, dict_get.
      rewrite (lookup_map _ _ i r Hi). unfold result_block, dict_get.
      now rewrite Hurl.
    + intros answer ->. do 2 eexists. split; [reflexivity |]. split; [reflexivity |].
      unfold web_sources, search_hits, dict_get.
      rewrite (lookup_map _ _ i r Hi). now rewrite Hurl.
Qed.

Lemma missing_provenance_defaults_witness :
  exists cmd sources,
    outcome_of (web_search_node Scenarios.env_web (Scenarios.ask "latest AI news"))
      = Returns cmd /\
    upd_documents (update cmd) = Some sources /\
    sources !! 1 = Some "N/A".
Proof.
  exact (proj2 (proj2 (proj2 (missing_provenance_defaults Scenarios.env_web
                                (Scenarios.ask "latest AI news"))
                         Scenarios.two_hits 1 {[ "content" := "beta" ]}
                         eq_refl eq_refl eq_refl))
           "answer" eq_refl).
Defined.

(** C10. When the provider call returns a response with no ['results'] key
    or with an empty ['results'] list, the web-search responder returns: it
    called the language model exactly once, with an empty context block, and
    the sources it writes are empty. *)
Theorem web_search_no_results (env : Env) (st : AgentState) (sr : SearchResponse) :
  tavily_search env (query st) "basic" 3 = Returns sr ->
  sr !! "results" = None \/ sr !! "results" = Some [] ->
  (exists cmd,
     outcome_of (web_search_node env st) = Returns cmd /\
     goto cmd = END /\
     upd_documents (update cmd) = Some []) /\
  results_content sr = "" /\
  llm_calls (trace_of (web_search_node env st)) =
    [ [ SystemMessage "Sei un assistente AI che sintetizza informazioni da ricerche web.";
        HumanMessage (web_prompt "" (query st)) ] ].
Proof.
  intros Hsearch Hnone.
  assert (Hhits : search_hits sr = []).
  { unfold search_hits, dict_get. destruct Hnone as [-> | ->]; reflexivity. }
  assert (Hcontent : results_content sr = "").
  { unfold results_content. now rewrite Hhits. }
  rewrite web_search_node_eq, Hsearch. unfold outcome_of, trace_of. cbn [fst snd].
  split; [| split; [exact Hcontent |]].
  - destruct (llm_invoke env (web_messages sr (query st)));
      eexists; (split; [reflexivity |]); (split; [reflexivity |]); cbn;
      unfold web_sources; now rewrite ?Hhits.
  - cbn. unfold web_messages. now rewrite Hcontent.
Qed.

Lemma web_search_no_results_witness :
  tavily_search Scenarios.env_web_no_hits "latest AI news" "basic" 3 = Returns ∅ /\
  exists cmd,
    outcome_of (web_search_node Scenarios.env_web_no_hits (Scenarios.ask "latest AI news"))
      = Returns cmd /\
    goto cmd = END /\ upd_documents (update cmd) = Some [].
Proof.
  split; [reflexivity |].
  exact (proj1 (web_search_no_results Scenarios.env_web_no_hits
                  (Scenarios.ask "latest AI news") ∅ eq_refl (or_introl eq_refl))).
Defined.

End Provenance.

(* ====================================================================== *)
(** ** The router's normalisation *)
(* ====================================================================== *)

Section Normalisation.
Import PyStr LangGraph RagLogic.

Lemma isspace_lower_char (c : ascii) : isspace (lower_char c) = isspace c.
Proof. destruct c as [[] [] [] [] [] [] [] []]; reflexivity. Qed.

Lemma lower_lstrip (s : string) : lower (lstrip s) = lstrip (lower s).
Proof.
  induction s as [| c s IH]; [reflexivity |].
  cbn [lstrip lower]. rewrite isspace_lower_char.
  destruct (isspace c); [exact IH | reflexivity].
Qed.

Lemma lower_rstrip (s : string) : lower (rstrip s) = rstrip (lower s).
Proof.
  induction s as [| c s IH]; [reflexivity |].
  cbn [rstrip lower]. rewrite <- IH, isspace_lower_char.
  destruct (rstrip s) as [| a r]; cbn [lower]; [| reflexivity].
  destruct (isspace c); reflexivity.
Qed.

Lemma lower_strip (s : string) : lower (strip s) = strip (lower s).
Proof. unfold strip. now rewrite lower_rstrip, lower_lstrip. Qed.

Lemma lstrip_all_space (s : string) : all_space s = true -> lstrip s = "".
Proof.
  induction s as [| c s IH]; [reflexivity |].
  cbn. destruct (isspace c); [exact IH | discriminate].
Qed.

Lemma rstrip_all_space (s : string) : all_space s = true -> rstrip s = "".
Proof.
  induction s as [| c s IH]; [reflexivity |].
  cbn. destruct (isspace c); [| discriminate].
  intros H. now rewrite (IH H).
Qed.

Lemma append_cons (c : ascii) (a b : string) :
  String c a +:+ b = String c (a +:+ b).
Proof. reflexivity. Qed.

Lemma append_nil (b : string) : "" +:+ b = b.
Proof. reflexivity. Qed.

Lemma lstrip_padded (pre s : string) :
  all_space pre = true -> lstrip (pre +:+ s) = lstrip s.
Proof.
  induction pre as [| c pre IH]; [reflexivity |].
  rewrite append_cons. cbn [all_space lstrip].
  destruct (isspace c); [exact IH | discriminate].
Qed.

Lemma rstrip_padded (s post : string) :
  all_space post = true -> rstrip (s +:+ post) = rstrip s.
Proof.
  intros Hpost. induction s as [| c s IH].
  - rewrite append_nil. now apply rstrip_all_space.
  - rewrite append_cons. cbn [rstrip]. now rewrite IH.
Qed.

Lemma strip_padded_right (s post : string) :
  all_space post = true -> strip (s +:+ post) = strip s.
Proof.
  intros Hpost. unfold strip. induction s as [| c s IH].
  - rewrite append_nil. now rewrite (lstrip_all_space post Hpost).
  - rewrite append_cons. cbn [lstrip]. destruct (isspace c); [exact IH |].
    rewrite <- append_cons. exact (rstrip_padded (String c s) post Hpost).
Qed.

Lemma strip_padded (pre s post : string) :
  all_space pre = true -> all_space post = true ->
  strip (pre +:+ s +:+ post) = strip s.
Proof.
  intros Hpre Hpost. unfold strip. rewrite (lstrip_padded pre _ Hpre).
  exact (strip_padded_right s post Hpost).
Qed.

(** X1. The category does not depend on white space around the
    classifier's answer nor on its case: an answer padded on both sides with
    white space gets the category of the bare answer, and two answers with
    the same lower-casing get the same category; so the router node ends the
    same way on an answer and on the same answer padded and in another
    case. *)
Theorem validate_ignores_padding_and_case :
  (forall pre raw post,
     all_space pre = true -> all_space post = true ->
     validate (pre +:+ raw +:+ post) = validate raw) /\
  (forall a b, lower a = lower b -> validate a = validate b) /\
  (forall env env' st a b,
     llm_invoke env (router_messages (query st)) = Returns a ->
     llm_invoke env' (router_messages (query st)) = Returns b ->
     (exists pre post, all_space pre = true /\ all_space post = true /\
                       lower b = lower (pre +:+ a +:+ post)) ->
     router_node env st = router_node env' st).
Proof.
  assert (Hpad : forall pre raw post,
             all_space pre = true -> all_space post = true ->
             validate (pre +:+ raw +:+ post) = validate raw).
  { intros pre raw post Hpre Hpost. unfold validate.
    now rewrite (strip_padded pre raw post Hpre Hpost). }
  assert (Hcase : forall a b, lower a = lower b -> validate a = validate b).
  { intros a b Hab. unfold validate. now rewrite !lower_strip, Hab. }
  split; [exact Hpad |]. split; [exact Hcase |].
  intros env env' st a b Ha Hb Hrel.
  rewrite !router_node_eq, Ha, Hb.
  assert (Hv : validate a = validate b).
  { destruct Hrel as (pre & post & Hpre & Hpost & Hlow).
    rewrite (Hcase b _ Hlow). symmetry. now apply Hpad. }
  now rewrite Hv.
Qed.

Lemma validate_ignores_padding_and_case_witness :
  router_node Scenarios.env_web (Scenarios.ask "latest AI news")
  = router_node Scenarios.env_web_offline (Scenarios.ask "latest AI news").
Proof.
  symmetry.
  apply (proj2 (proj2 validate_ignores_padding_and_case)
           Scenarios.env_web_offline Scenarios.env_web
           (Scenarios.ask "latest AI news") "web_search" ("  Web_Search" +:+ nl)
           eq_refl eq_refl).
  exists "  ", nl. repeat split; reflexivity.
Defined.

End Normalisation.

(* ====================================================================== *)
(** ** What a run can raise, and what it calls *)
(* ====================================================================== *)

Section RunEffects.
Import PyStr LangGraph RagLogic.

(** X2. A run raises [e] exactly when the router's classifier call raises
    [e], or the run is routed to retrieval and there the store raises [e] or
    the language model raises [e] on the retrieval prompt.  Nothing else
    makes a run raise: a run routed to web search always returns, whatever
    the provider and the language model do there. *)
Theorem run_agent_raises_iff (env : Env) (q : string) :
  (forall e,
     outcome_of (run_agent env q) = Raises e <->
     llm_invoke env (router_messages q) = Raises e \/
     exists raw,
       llm_invoke env (router_messages q) = Returns raw /\
       validate raw = "rag_search" /\
       (chroma_search env (vectorstore env) 3 q = Raises e \/
        exists docs,
          chroma_search env (vectorstore env) 3 q = Returns docs /\
          llm_invoke env (rag_messages docs q) = Raises e)) /\
  (forall raw,
     llm_invoke env (router_messages q) = Returns raw ->
     validate raw = "web_search" ->
     exists r, outcome_of (run_agent env q) = Returns r /\
               r_decision r = "web_search").
Proof.
  unfold outcome_of. split.
  - intros err. run_cases env q; cbn;
      (split;
       [ intros [= <-];
         first [ left; reflexivity
               | right; eexists; split; [reflexivity |]; split; [assumption |];
                 first [ left; reflexivity
                       | right; eexists; split; [reflexivity | assumption] ] ]
       | intros [Hr | (raw0 & Hr & Hlabel & Hrag)];
         [ congruence |];
         first [ discriminate Hr | injection Hr as <- ];
         destruct Hrag as [Hs | (docs0 & Hs & Hl)];
         try congruence; injection Hs as <-; congruence ]).
  - intros raw' Hraw Hweb. run_cases env q; cbn;
      try discriminate; injection Hraw as <-;
      try (rewrite Hv in Hweb; discriminate Hweb); eauto.
Qed.

Lemma run_agent_raises_iff_witness :
  outcome_of (run_agent Scenarios.env_store_down "Cos'e FastAPI?")
    = Raises Scenarios.offline /\
  exists r, outcome_of (run_agent Scenarios.env_web_offline "latest AI news") = Returns r /\
            r_decision r = "web_search".
Proof.
  split.
  - apply (proj1 (run_agent_raises_iff Scenarios.env_store_down "Cos'e FastAPI?")).
    right. exists "rag_search". repeat split. now left.
  - exact (proj2 (run_agent_raises_iff Scenarios.env_web_offline "latest AI news")
             "web_search" eq_refl eq_refl).
Defined.

(** X3. What a run spends: it calls the language model at most twice and
    the first call is the router's prompt; it calls the store or the search
    provider at most once in all, never both.  Routed to retrieval it asks
    the store once for 3 passages on the query and never the provider;
    routed to web search it asks the provider once (query, ['basic'], 3)
    and never the store; when the classifier call raises it calls neither. *)
Theorem run_agent_call_budget (env : Env) (q : string) :
  let tr := trace_of (run_agent env q) in
  head (llm_calls tr) = Some (router_messages q) /\
  length (llm_calls tr) <= 2 /\
  length (retriever_calls tr) + length (tavily_calls tr) <= 1 /\
  (forall raw,
     llm_invoke env (router_messages q) = Returns raw ->
     (validate raw = "rag_search" ->
      retriever_calls tr = [(3, q)] /\ tavily_calls tr = []) /\
     (validate raw = "web_search" ->
      tavily_calls tr = [(q, "basic", 3)] /\ retriever_calls tr = [])) /\
  (forall e,
     llm_invoke env (router_messages q) = Raises e ->
     llm_calls tr = [router_messages q] /\
     retriever_calls tr = [] /\ tavily_calls tr = []).
Proof.
  cbv zeta. unfold trace_of.
  run_cases env q; cbn;
    (split; [reflexivity |]); (split; [lia |]); (split; [lia |]);
    (split;
     [ intros raw' [= <-]; rewrite Hv; split; intros Hlabel;
       solve [discriminate Hlabel | split; reflexivity]
     | intros err Herr; solve [discriminate Herr | repeat split; reflexivity] ]).
Qed.

Lemma run_agent_call_budget_witness :
  retriever_calls (trace_of (run_agent Scenarios.env_rag "Cos'e FastAPI?"))
    = [(3, "Cos'e FastAPI?")] /\
  tavily_calls (trace_of (run_agent Scenarios.env_rag "Cos'e FastAPI?")) = [].
Proof.
  exact (proj1 (proj1 (proj2 (proj2 (proj2
           (run_agent_call_budget Scenarios.env_rag "Cos'e FastAPI?"))))
           "maybe" eq_refl) eq_refl).
Defined.

End RunEffects.

(* ====================================================================== *)
(** ** The sources a run returns *)
(* ====================================================================== *)

Section Sources.
Import PyStr LangGraph RagLogic.

Lemma sample_documents_fit_in_a_chunk :
  Forall (fun d => String.length (page_content d) <= 500) sample_documents.
Proof. repeat constructor; apply Nat.leb_le; vm_compute; reflexivity. Qed.

Lemma vectorstore_sample (env : Env) :
  splitter_keeps_short_documents env -> vectorstore env = sample_documents.
Proof.
  intros Hsplit. unfold vectorstore, initialize_vector_store.
  apply Hsplit, sample_documents_fit_in_a_chunk.
Qed.

Lemma sample_source (d : Document) :
  In d sample_documents ->
  In (dict_get (metadata d) "source" "unknown")
     ["python_intro.txt"; "fastapi_docs.txt"; "langgraph_guide.txt";
      "ml_basics.txt"; "chroma_overview.txt"].
Proof.
  intros Hd. repeat (destruct Hd as [<- | Hd]; [cbn; tauto |]). destruct Hd.
Qed.

(** X4. With a splitter that returns documents fitting in one chunk as
    they are, the store holds the five sample documents (each is at most 500
    characters long).  If moreover a search returns passages of the store,
    and comes back empty only on an empty store, then whenever the retrieval
    responder returns, its sources are not empty and each is one of the five
    file names of the sample documents, never ['unknown']. *)
Theorem rag_sources_of_sample_store (env : Env) (st : AgentState) :
  splitter_keeps_short_documents env ->
  search_returns_stored env ->
  empty_only_on_empty_store env ->
  vectorstore env = sample_documents /\
  forall cmd sources,
    outcome_of (rag_search_node env st) = Returns cmd ->
    upd_documents (update cmd) = Some sources ->
    sources <> [] /\
    Forall (fun s => In s ["python_intro.txt"; "fastapi_docs.txt";
                           "langgraph_guide.txt"; "ml_basics.txt";
                           "chroma_overview.txt"]) sources /\
    ~ In "unknown" sources.
Proof.
  intros Hsplit Hstored Hempty.
  pose proof (vectorstore_sample env Hsplit) as Hstore.
  split; [exact Hstore |].
  intros cmd sources. rewrite rag_search_node_eq. unfold outcome_of.
  destruct (chroma_search env (vectorstore env) 3 (query st)) as [docs | e] eqn:Hdocs;
    cbn [fst]; [| discriminate].
  destruct (llm_invoke env (rag_messages docs (query st))); [| discriminate].
  intros [= <-] [= <-].
  assert (Hall : Forall (fun s => In s ["python_intro.txt"; "fastapi_docs.txt";
                                        "langgraph_guide.txt"; "ml_basics.txt";
                                        "chroma_overview.txt"]) (doc_sources docs)).
  { unfold doc_sources. apply List.Forall_forall. intros s Hs.
    apply in_map_iff in Hs as (d & <- & Hd).
    apply sample_source. rewrite <- Hstore. exact (Hstored _ _ _ _ Hdocs d Hd). }
  split; [| split; [exact Hall |]].
  - intros Hnil. apply (f_equal (@length string)) in Hnil.
    rewrite length_doc_sources in Hnil. apply length_zero_iff_nil in Hnil. subst docs.
    pose proof (Hempty _ 3 (query st) ltac:(lia) Hdocs) as Hnone.
    rewrite Hstore in Hnone. discriminate Hnone.
  - intros Hunknown. rewrite List.Forall_forall in Hall.
    specialize (Hall _ Hunknown). cbn in Hall.
    repeat (destruct Hall as [Hall | Hall]; [discriminate Hall |]). exact Hall.
Qed.

Lemma whole_documents_keeps_short : splitter_keeps_short_documents Scenarios.env_rag.
Proof. intros chunk_size chunk_overlap docs _. reflexivity. Defined.

Lemma first_k_returns_stored : search_returns_stored Scenarios.env_rag.
Proof.
  intros store k q docs [= <-] d Hd.
  apply list_elem_of_In. apply list_elem_of_In in Hd.
  exact (subseteq_take k store d Hd).
Defined.

Lemma first_k_empty_on_empty : empty_only_on_empty_store Scenarios.env_rag.
Proof.
  intros store k q Hk. destruct k as [| k]; [lia |].
  destruct store; [reflexivity | discriminate].
Defined.

Lemma rag_sources_of_sample_store_witness :
  ~ In "unknown" ["python_intro.txt"; "fastapi_docs.txt"; "langgraph_guide.txt"].
Proof.
  exact (proj2 (proj2 (proj2
           (rag_sources_of_sample_store Scenarios.env_rag (Scenarios.ask "Cos'e FastAPI?")
              whole_documents_keeps_short first_k_returns_stored first_k_empty_on_empty)
           (mkCommand END (mkUpdate None (Some "answer")
              (Some ["python_intro.txt"; "fastapi_docs.txt"; "langgraph_guide.txt"])))
           _ eq_refl eq_refl))).
Defined.

Lemma length_web_sources (sr : SearchResponse) :
  length (web_sources sr) = length (default [] (sr !! "results")).
Proof. unfold web_sources, search_hits, dict_get. apply length_map. Qed.

(** The web-search responder itself does not cut the results: a provider
    that ignores [max_results] and returns four gives four sources. *)
Example web_sources_not_truncated :
  outcome_of (run_agent Scenarios.env_web_uncapped "latest AI news") =
  Returns {| r_query := "latest AI news"; r_decision := "web_search";
             r_result := "answer";
             r_sources := ["https://example.org/1"; "https://example.org/2";
                           "https://example.org/3"; "https://example.org/4"] |}.
Proof. reflexivity. Qed.

(** X5. If the store returns at most the [k] passages asked for and the
    search provider at most the [max_results] results asked for, every
    record a run returns has at most 3 sources, on either path and also
    when the web path falls back to its error answer. *)
Theorem run_agent_sources_at_most_3 (env : Env) (q : string) (r : AgentResponse) :
  returns_at_most_k env ->
  provider_honours_max_results env ->
  outcome_of (run_agent env q) = Returns r ->
  length (r_sources r) <= 3.
Proof.
  intros Hk Hmax. unfold outcome_of.
  run_cases env q; cbn; intros [= <-]; cbn [r_sources]; try (cbn [length]; lia).
  - rewrite length_doc_sources. eapply Hk; eassumption.
  - rewrite length_web_sources. eapply Hmax; eassumption.
Qed.

Lemma capped_at_most_k : returns_at_most_k Scenarios.env_web_capped.
Proof. intros store k q docs [= <-]. rewrite length_take. lia. Defined.

Lemma capped_honours_max : provider_honours_max_results Scenarios.env_web_capped.
Proof.
  intros q depth n sr [= <-]. rewrite lookup_singleton_eq. cbn [default].
  unfold id. rewrite length_take. lia.
Defined.

Lemma run_agent_sources_at_most_3_witness :
  length ["https://example.org/1"; "https://example.org/2"; "https://example.org/3"] <= 3.
Proof.
  exact (run_agent_sources_at_most_3 Scenarios.env_web_capped "latest AI news"
           {| r_query := "latest AI news"; r_decision := "web_search";
              r_result := "answer";
              r_sources := ["https://example.org/1"; "https://example.org/2";
                            "https://example.org/3"] |}
           capped_at_most_k capped_honours_max eq_refl).
Defined.

End Sources.

(* ====================================================================== *)
(** ** POST /chat: refused bodies *)
(* ====================================================================== *)

Section ChatValidation.
Import PyStr LangGraph RagLogic Main.





(** A query of exactly 1000 characters is accepted, one of 1001 is not. *)
Example query_length_bounds :
  parse_ChatRequest {[ "query" := Scenarios.copies 1000 "a" ]}
    = Some (mkChatRequest (Scenarios.copies 1000 "a")) /\
  parse_ChatRequest {[ "query" := Scenarios.copies 1001 "a" ]} = None /\
  parse_ChatRequest {[ "query" := "a" ]} = Some (mkChatRequest "a") /\
  parse_ChatRequest {[ "query" := "" ]} = None /\
  parse_ChatRequest {[ "question" := "a" ]} = None.
Proof. vm_compute. repeat split; reflexivity. Qed.



End ChatValidation.

(* ====================================================================== *)
(** ** Frontend: what is shown for a reply *)
(* ====================================================================== *)

Section FrontendFormat.
Import PyStr Frontend.

Lemma append_assoc (a b c : string) : (a +:+ b) +:+ c = a +:+ b +:+ c.
Proof.
  induction a as [| x a IH]; [reflexivity |].
  rewrite !append_cons. now rewrite IH.
Qed.

Lemma append_empty_r (a : string) : a +:+ "" = a.
Proof.
  induction a as [| x a IH]; [reflexivity |].
  rewrite append_cons. now rewrite IH.
Qed.

Lemma join_empty_cons (x : string) (l : list string) :
  join "" (x :: l) = x +:+ join "" l.
Proof.
  destruct l as [| y l]; cbn [join]; [now rewrite append_empty_r |].
  now rewrite append_nil.
Qed.

Lemma add_sources_eq (sources : list string) (i : nat) (formatted : string) :
  add_sources i sources formatted = formatted +:+ join "" (source_lines i sources).
Proof.
  revert i formatted. induction sources as [| source rest IH]; intros i formatted.
  - cbn. now rewrite append_empty_r.
  - cbn [add_sources source_lines]. rewrite IH, join_empty_cons.
    now rewrite append_assoc.
Qed.

Lemma source_lines_lookup (sources : list string) (i k : nat) (s : string) :
  sources !! k = Some s ->
  source_lines i sources !! k
  = Some (str_of_nat (i + k) +:+ ". `" +:+ s +:+ "`" +:+ nl).
Proof.
  revert i k. induction sources as [| source rest IH]; intros i k H; [discriminate |].
  destruct k as [| k]; cbn in *.
  - injection H as ->. now rewrite Nat.add_0_r.
  - rewrite Nat.add_succ_r. exact (IH (S i) k H).
Qed.

Lemma length_source_lines (sources : list string) (i : nat) :
  length (source_lines i sources) = length sources.
Proof.
  revert i. induction sources as [| source rest IH]; intros i; [reflexivity |].
  cbn. now rewrite IH.
Qed.

(** X7. The text shown for a reply is the answer (or ['Nessuna risposta
    disponibile'] when the reply has none), a rule, and the method line:
    ['RAG (Documenti Interni)'] exactly when the decision is
    ['rag_search'], ['Web Search'] for every other decision and when the
    reply has none.  A sources section follows only when the reply has at
    least one source: a heading, then one line per source in the order
    received, the first numbered 1. *)
Theorem format_response_layout (d : ResponseData) :
  let result := default "Nessuna risposta disponibile" (rd_result d) in
  let sources := default [] (rd_sources d) in
  let method :=
    if decide (rd_decision d = Some "rag_search")
    then books +:+ " **Metodo usato:** RAG (Documenti Interni)"
    else globe +:+ " **Metodo usato:** Web Search" in
  let header := result +:+ nl +:+ nl +:+ "---" +:+ nl +:+ method +:+ nl in
  format_response d =
    header +:+
    match sources with
    | [] => ""
    | _ :: _ =>
        nl +:+ "**" +:+ paperclip +:+ " Fonti:**" +:+ nl
        +:+ join "" (source_lines 1 sources)
    end /\
  length (source_lines 1 sources) = length sources /\
  forall k s,
    sources !! k = Some s ->
    source_lines 1 sources !! k
    = Some (str_of_nat (S k) +:+ ". `" +:+ s +:+ "`" +:+ nl).
Proof.
  cbv zeta. split; [| split].
  - unfold format_response.
    assert (Hlabel :
      (if String.eqb (default "unknown" (rd_decision d)) "rag_search"
       then books else globe) +:+ " **Metodo usato:** " +:+
      (if String.eqb (default "unknown" (rd_decision d)) "rag_search"
       then "RAG (Documenti Interni)" else "Web Search")
      = if decide (rd_decision d = Some "rag_search")
        then books +:+ " **Metodo usato:** RAG (Documenti Interni)"
        else globe +:+ " **Metodo usato:** Web Search").
    { destruct (rd_decision d) as [dec |].
      - change (default "unknown" (Some dec)) with dec.
        destruct (String.eqb_spec dec "rag_search") as [-> | Hne].
        + rewrite decide_True by reflexivity. reflexivity.
        + rewrite decide_False by congruence. reflexivity.
      - change (default "unknown" None) with "unknown".
        rewrite decide_False by discriminate. reflexivity. }
    destruct (default [] (rd_sources d)) as [| s0 rest].
    + rewrite append_empty_r, !append_assoc. rewrite <- Hlabel.
      now rewrite !append_assoc.
    + rewrite add_sources_eq, !append_assoc. rewrite <- Hlabel.
      now rewrite !append_assoc.
  - apply length_source_lines.
  - intros k s Hk. exact (source_lines_lookup _ 1 k s Hk).
Qed.

Lemma format_response_layout_witness :
  source_lines 1 ["a.txt"; "b.txt"] !! 1 = Some ("2. `b.txt`" +:+ nl).
Proof.
  exact (proj2 (proj2 (format_response_layout
           (mkData None (Some "rag_search") (Some "Risposta")
              (Some ["a.txt"; "b.txt"]) None None))) 1 "b.txt" eq_refl).
Defined.

(** X8. [send_query_to_backend] gives back the JSON object of the reply
    exactly when a reply arrived, its status is 200 and its body is JSON,
    and then writes nothing on the page.  In every other case (another
    status, 2xx or not, a body that does not parse, a timeout, a failed
    connection, any other exception) it gives [None] and writes exactly one
    error. *)
Theorem send_query_to_backend_result (post : Net) (query : string) :
  let sending := send_query_to_backend post query in
  (forall data,
     fst sending = Some data <->
     exists response,
       post (BACKEND_URL +:+ "/chat") {[ "query" := query ]} 30 = Replied response /\
       status_code response = 200 /\
       json response = Returns data) /\
  (forall data, fst sending = Some data -> snd sending = []) /\
  (fst sending = None -> exists msg, snd sending = [StError msg]).
Proof.
  cbv zeta. unfold send_query_to_backend.
  destruct (post (BACKEND_URL +:+ "/chat") {[ "query" := query ]} 30)
    as [response | [| | msg]].
  - destruct (Nat.eqb_spec (status_code response) 200) as [H200 | Hne].
    + destruct (json response) as [data' | e] eqn:Hjson; cbn [fst snd].
      * split; [| split; [reflexivity | discriminate]].
        intros data. split.
        -- intros [= <-]. exists response. rewrite Hjson. auto.
        -- intros (response' & [= <-] & _ & Hj). congruence.
      * split; [| split; [discriminate | eauto]].
        intros data. split; [discriminate |].
        intros (response' & [= <-] & _ & Hj). congruence.
    + cbn [fst snd]. split; [| split; [discriminate | eauto]].
      intros data. split; [discriminate |].
      intros (response' & [= <-] & H200 & _). contradiction.
  - cbn [fst snd]. split; [| split; [discriminate | eauto]].
    intros data. split; [discriminate | intros (response' & [=] & _)].
  - cbn [fst snd]. split; [| split; [discriminate | eauto]].
    intros data. split; [discriminate | intros (response' & [=] & _)].
  - cbn [fst snd]. split; [| split; [discriminate | eauto]].
    intros data. split; [discriminate | intros (response' & [=] & _)].
Qed.

Lemma send_query_to_backend_result_witness :
  exists msg,
    snd (send_query_to_backend (fun _ _ _ => Failed Timeout) "Come funziona FastAPI?")
    = [StError msg].
Proof.
  exact (proj2 (proj2 (send_query_to_backend_result
                         (fun _ _ _ => Failed Timeout) "Come funziona FastAPI?"))
           eq_refl).
Defined.

End FrontendFormat.

(* ====================================================================== *)
(** ** Frontend: the chat history *)
(* ====================================================================== *)

Section FrontendSession.
Import PyStr RagLogic Main Frontend.





Lemma served_chat (env : Env) (q : string) :
  send_query_to_backend (served_by env) q =
  let response := fst (post_chat env {[ "query" := q ]}) in
  if Nat.eqb (Main.status_code response) 200
  then (Some (to_json (Main.body response)), [])
  else (None, [StError ("Errore dal backend: "
                        +:+ str_of_nat (Main.status_code response))]).
Proof.
  unfold send_query_to_backend, served_by. rewrite String.eqb_refl. reflexivity.
Qed.

Lemma post_chat_long (env : Env) (q : string) :
  1000 < String.length q ->
  fst (post_chat env {[ "query" := q ]}) = mkHttp 422 (ErrorBody "Unprocessable Entity").
Proof.
  intros Hlong. unfold post_chat, parse_ChatRequest. rewrite lookup_singleton_eq.
  destruct (Nat.leb_spec (String.length q) 1000); [lia |].
  now rewrite andb_false_r.
Qed.

(** X10. One question through the frontend to a backend that is up.  For
    a question of at most 1000 characters on which the agent returns a
    record, the history gains the question and the formatted text of that
    record (its query, category, answer, sources and status ['success']),
    and no error is written.  For a longer question, or when the agent
    raises, the history gains the question and the fixed text
    ['Impossibile ottenere una risposta. Riprova.'], and the page shows the
    status code (422, or 500) but not the error detail the backend sent. *)
Theorem question_through_backend (env : Env) (messages : list ChatMessage) (q : string) :
  q <> "" ->
  let turn := process_query (served_by env) messages (Some q) in
  (forall r,
     String.length q <= 1000 ->
     outcome_of (run_agent env q) = Returns r ->
     let shown :=
       format_response
         (mkData (Some (r_query r)) (Some (r_decision r)) (Some (r_result r))
                 (Some (r_sources r)) (Some "success") None) in
     fst turn = (messages ++ [mkMessage "user" q; mkMessage "assistant" shown])%list /\
     snd turn = [StChatMarkdown "user" q; StChatMarkdown "assistant" shown]) /\
  (1000 < String.length q \/ (exists e, outcome_of (run_agent env q) = Raises e) ->
   fst turn = (messages ++ [mkMessage "user" q; mkMessage "assistant" error_msg])%list /\
   snd turn =
     [ StChatMarkdown "user" q;
       StError ("Errore dal backend: "
                +:+ (if Nat.ltb 1000 (String.length q) then "422" else "500"));
       StError error_msg ]).
Proof.
  intros Hq. cbv zeta. unfold process_query.
  apply String.eqb_neq in Hq as Hqb. rewrite Hqb, served_chat. cbv zeta.
  assert (Hpos : 1 <= String.length q).
  { destruct q; [congruence | cbn; lia]. }
  split.
  - intros r Hlen Hret.
    rewrite (post_chat_eq env {[ "query" := q ]} q (lookup_singleton_eq _ _)
               (conj Hpos Hlen)), Hret.
    cbn. rewrite <- app_assoc. split; reflexivity.
  - intros Hfail.
    destruct (Nat.ltb_spec 1000 (String.length q)) as [Hlong | Hlen].
    + rewrite (post_chat_long env q Hlong). cbn. rewrite <- app_assoc.
      split; reflexivity.
    + destruct Hfail as [Hlong | [e He]]; [lia |].
      rewrite (post_chat_eq env {[ "query" := q ]} q (lookup_singleton_eq _ _)
                 (conj Hpos Hlen)), He.
      cbn. rewrite <- app_assoc. split; reflexivity.
Qed.

Lemma question_through_backend_witness :
  snd (process_query (served_by Scenarios.env_llm_down) [] (Some "latest AI news")) =
  [ StChatMarkdown "user" "latest AI news";
    StError "Errore dal backend: 500";
    StError error_msg ].
Proof.
  refine (proj2 (proj2 (question_through_backend Scenarios.env_llm_down []
                          "latest AI news" _) _)).
  - discriminate.
  - right. exists (Exception "timeout"). reflexivity.
Defined.

End FrontendSession.
